(** * Functional enrichment analysis: the four analysis scripts

    A shallow embedding of [get_gene_list.py], [go_analysis.py],
    [pathway_analysis.py] and [gsea.py].

    The scripts compute on pandas columns of IEEE binary64 numbers.  The
    embedding is written once over an interface [Arith] of the arithmetic
    the scripts use and is run on binary64 (the [SpecFloat] specification
    of IEEE 754 at precision 53, round to nearest even).  pandas and numpy
    are libraries outside the repository; their operations are embedded
    as they compute: [Series.mean] and [Series.std] count the present
    values, replace the missing ones by [0.0] and add the whole column in
    numpy's order of additions, [std] uses [ddof = 1], comparisons with NaN
    are false, and a boolean mask selects the rows at which it is [True]. *)

From Stdlib Require Import ZArith List Bool String Permutation Lia.
From Stdlib Require Import Floats.SpecFloat.
From Stdlib Require Import Reals Lra.
Import ListNotations.

Set Implicit Arguments.

Local Open Scope string_scope.
Local Open Scope list_scope.
Local Open Scope Z_scope.

(** ** Arithmetic interface *)

Class Arith (F : Type) : Type := {
  fnan   : F;
  of_Z   : Z -> F;
  fadd   : F -> F -> F;
  fsub   : F -> F -> F;
  fmul   : F -> F -> F;
  fdiv   : F -> F -> F;
  fsqrt  : F -> F;
  fltb   : F -> F -> bool;
  is_nan : F -> bool;
  (* the two decimal literals of [get_gene_list.py] *)
  lit_1_5  : F;
  lit_0_05 : F
}.

(** Python's [x > y] on numbers. *)
Definition fgtb {F} `{Arith F} (x y : F) : bool := fltb y x.

(** What every IEEE arithmetic guarantees about NaN, and the symmetry of a
    squared difference. *)
Class NaNLaws (F : Type) `{Arith F} : Prop := {
  is_nan_fnan  : is_nan fnan = true;
  is_nan_eq    : forall x, is_nan x = true -> x = fnan;
  fadd_nan_r   : forall x, fadd x fnan = fnan;
  fmul_nan_r   : forall x, fmul x fnan = fnan;
  fsqrt_nan    : fsqrt fnan = fnan;
  fltb_nan_l   : forall x, fltb fnan x = false;
  fltb_nan_r   : forall x, fltb x fnan = false;
  fsq_sub_swap : forall a b,
      fmul (fsub a b) (fsub a b) = fmul (fsub b a) (fsub b a)
}.
Arguments NaNLaws F {_}.

(** Arithmetic without rounding: addition may be regrouped and reordered. *)
Class ExactAdd (F : Type) `{Arith F} : Prop := {
  fadd_assoc : forall x y z, fadd x (fadd y z) = fadd (fadd x y) z;
  fadd_comm  : forall x y, fadd x y = fadd y x
}.
Arguments ExactAdd F {_}.

(** Arithmetic in which adding [0] changes nothing. *)
Class ZeroNeutral (F : Type) `{Arith F} : Prop := {
  fadd_0_r : forall x, fadd x (of_Z 0) = x
}.
Arguments ZeroNeutral F {_}.

(** ** Python exceptions and the result of a script *)

Inductive exn : Type :=
| IndexingError (msg : string)
| ServiceError (msg : string).

Inductive result (A : Type) : Type :=
| Ok (a : A)
| Raise (e : exn).
Arguments Ok {A} a.
Arguments Raise {A} e.

(** A script either binds a value or stops at the first exception. *)
Class Monad (M : Type -> Type) : Type := {
  ret  : forall {A}, A -> M A;
  bind : forall {A B}, M A -> (A -> M B) -> M B
}.

Notation "x <- m ;; k" := (bind m (fun x => k))
  (at level 61, m at next level, right associativity).
Notation "m ;;; k" := (bind m (fun _ => k))
  (at level 61, right associativity).

#[export] Instance result_Monad : Monad result := {
  ret := fun A a => Ok a;
  bind := fun A B m k =>
    match m with
    | Ok a => k a
    | Raise e => Raise e
    end
}.

(** ** pandas: series and data frames *)

Module pd.
Section Pandas.
Context {F : Type} `{Arith F}.

(** One row of the gene-score table; the fields are the CSV columns. *)
Record row : Type := mkrow {
  names : string;
  scores : F;
  pvals_adj : F
}.

Definition DataFrame := list row.

(** [df['names']], [df['scores']], [df['pvals_adj']]. *)
Definition col_names (df : DataFrame) : list string := map names df.
Definition col_scores (df : DataFrame) : list F := map scores df.
Definition col_pvals_adj (df : DataFrame) : list F := map pvals_adj df.

(** [Series.dropna]: the values that are present. *)
Definition dropna (s : list F) : list F :=
  filter (fun x => negb (is_nan x)) s.

(** The column with every missing value replaced by [0.0], as pandas
    prepares it for a sum. *)
Definition fillna0 (s : list F) : list F :=
  map (fun x => if is_nan x then of_Z 0 else x) s.

(** *** numpy's sum of a float array

    Fewer than eight values are added left to right from [0.0].  Up to 128
    values are added in eight partial sums, the i-th taking every eighth
    value from the i-th on; the eight are combined in pairs and the values
    left over after the last full group of eight are added one by one.
    Longer arrays are cut in two, the first part a multiple of eight, and
    the sums of the parts are added. *)

Definition lanes : Type := (F * F * F * F * F * F * F * F)%type.

Definition lanes_total (r : lanes) : F :=
  let '(r0, r1, r2, r3, r4, r5, r6, r7) := r in
  fadd (fadd (fadd r0 r1) (fadd r2 r3)) (fadd (fadd r4 r5) (fadd r6 r7)).

(** The loop over the full groups of eight: the partial sums and the
    values left over. *)
Fixpoint unrolled (r : lanes) (a : list F) : lanes * list F :=
  match a with
  | x0 :: x1 :: x2 :: x3 :: x4 :: x5 :: x6 :: x7 :: rest =>
      let '(r0, r1, r2, r3, r4, r5, r6, r7) := r in
      unrolled (fadd r0 x0, fadd r1 x1, fadd r2 x2, fadd r3 x3,
                fadd r4 x4, fadd r5 x5, fadd r6 x6, fadd r7 x7) rest
  | _ => (r, a)
  end.

(** The sum of a block of 8 to 128 values. *)
Definition block_sum (a : list F) : F :=
  match a with
  | x0 :: x1 :: x2 :: x3 :: x4 :: x5 :: x6 :: x7 :: rest =>
      let '(r, tail) := unrolled (x0, x1, x2, x3, x4, x5, x6, x7) rest in
      fold_left fadd tail (lanes_total r)
  | _ => fold_left fadd a (of_Z 0)
  end.

(** The recursion on the length, with the depth of the recursion bounded
    by [fuel]; [np_sum] gives it the length of the array, which is more
    than it uses. *)
Fixpoint pairwise_sum (fuel : nat) (a : list F) : F :=
  let n := List.length a in
  if Nat.ltb n 8 then fold_left fadd a (of_Z 0)
  else if Nat.leb n 128 then block_sum a
  else
    match fuel with
    | O => block_sum a
    | S fuel' =>
        let n2 := (n / 2 - (n / 2) mod 8)%nat in
        fadd (pairwise_sum fuel' (firstn n2 a))
             (pairwise_sum fuel' (skipn n2 a))
    end.

Definition np_sum (a : list F) : F := pairwise_sum (List.length a) a.

(** [Series.mean()] ([skipna=True]): the sum of the column with the
    missing values replaced by [0.0], over the count of the present
    values; NaN when there is none. *)
Definition Series_mean (s : list F) : F :=
  let count := List.length (dropna s) in
  let the_sum := np_sum (fillna0 s) in
  if Nat.ltb 0 count then fdiv the_sum (of_Z (Z.of_nat count)) else fnan.

(** [Series.var()] ([skipna=True], [ddof=1]): NaN when [count <= ddof],
    else the sum of [(avg - x) ** 2], taken as [0.0] where [x] is missing,
    over [count - ddof]. *)
Definition Series_var (s : list F) : F :=
  let count := List.length (dropna s) in
  let ddof := 1%nat in
  if Nat.leb count ddof then fnan
  else
    let avg := fdiv (np_sum (fillna0 s)) (of_Z (Z.of_nat count)) in
    let sqr := map (fun x => if is_nan x then of_Z 0
                             else fmul (fsub avg x) (fsub avg x)) s in
    fdiv (np_sum sqr) (of_Z (Z.of_nat (count - ddof))).

(** [Series.std()]: the square root of [var]. *)
Definition Series_std (s : list F) : F := fsqrt (Series_var s).

(** [series > c] and [series < c]: a boolean series. *)
Definition Series_gt (s : list F) (c : F) : list bool :=
  map (fun x => fgtb x c) s.
Definition Series_lt (s : list F) (c : F) : list bool :=
  map (fun x => fltb x c) s.

(** [a & b] on boolean series over the same index. *)
Definition Series_and (a b : list bool) : list bool :=
  map (fun p => andb (fst p) (snd p)) (combine a b).

(** The rows of [df] at which [mask] is [True]. *)
Fixpoint take_rows (mask : list bool) (df : DataFrame) : DataFrame :=
  match mask, df with
  | b :: mask', r :: df' =>
      if b then r :: take_rows mask' df' else take_rows mask' df'
  | _, _ => []
  end.

(** [df[mask]]: pandas raises when the mask has not the length of the
    frame. *)
Definition boolean_index (df : DataFrame) (mask : list bool)
  : result DataFrame :=
  if Nat.eqb (List.length mask) (List.length df) then Ok (take_rows mask df)
  else Raise (IndexingError "Item wrong length").

(** [series.tolist()]. *)
Definition tolist {A} (s : list A) : list A := s.
End Pandas.
Arguments row F : clear implicits.
Arguments DataFrame F : clear implicits.
End pd.

(** ** get_gene_list.py *)

Module get_gene_list.
Section Script.
Context {F : Type} `{Arith F}.

(** The variables the script binds. *)
Record env : Type := mkenv {
  mean_score : F;
  std_score : F;
  threshold : F;
  significant_genes : pd.DataFrame F;
  gene_list : list string
}.

(** The script from the loaded frame on ([skeletal_muscle]). *)
Definition run (skeletal_muscle : pd.DataFrame F) : result env :=
  let mean_score := pd.Series_mean (pd.col_scores skeletal_muscle) in
  let std_score := pd.Series_std (pd.col_scores skeletal_muscle) in
  let threshold := fadd mean_score (fmul lit_1_5 std_score) in
  significant_genes <-
    pd.boolean_index skeletal_muscle
      (pd.Series_and
         (pd.Series_gt (pd.col_scores skeletal_muscle) threshold)
         (pd.Series_lt (pd.col_pvals_adj skeletal_muscle) lit_0_05)) ;;
  let gene_list := pd.tolist (pd.col_names significant_genes) in
  Ok (mkenv mean_score std_score threshold significant_genes gene_list).
End Script.
Arguments env F : clear implicits.
End get_gene_list.

(** ** IEEE binary64 *)

Module B64.
Definition prec : Z := 53.
Definition emax : Z := 1024.

Definition float := spec_float.

Definition nan : float := S754_nan.
Definition of_int (z : Z) : float := binary_normalize prec emax z 0 false.
Definition add : float -> float -> float := SFadd prec emax.
Definition sub : float -> float -> float := SFsub prec emax.
Definition mul : float -> float -> float := SFmul prec emax.
Definition div : float -> float -> float := SFdiv prec emax.
Definition sqrt : float -> float := SFsqrt prec emax.
Definition ltb : float -> float -> bool := SFltb.
Definition isnan (x : float) : bool :=
  match x with S754_nan => true | _ => false end.

(** The exact order between a double and the fraction [n / d]; [None]
    for NaN. *)
Definition compare_frac (x : float) (n : Z) (d : positive)
  : option comparison :=
  match x with
  | S754_nan => None
  | S754_infinity s => Some (if s then Lt else Gt)
  | S754_zero _ => Some (0 ?= n)
  | S754_finite s m e =>
      let sm := if s then Zneg m else Zpos m in
      Some (if 0 <=? e
            then sm * 2 ^ e * Zpos d ?= n
            else sm * Zpos d ?= n * 2 ^ (- e))
  end.

(** [lo / d <= x < hi / d], exactly. *)
Definition within (x : float) (lo hi : Z) (d : positive) : bool :=
  match compare_frac x lo d, compare_frac x hi d with
  | Some (Eq | Gt), Some Lt => true
  | _, _ => false
  end.

(** [x] written with one decimal is [tenths / 10]. *)
Definition rounds_to_tenths (x : float) (tenths : Z) : bool :=
  within x (10 * tenths - 5) (10 * tenths + 5) 100.

(** The double nearest to [n / d], as a decimal literal denotes it. *)
Definition of_frac (n d : Z) : float := div (of_int n) (of_int d).

(** [1.5] is [3 * 2^-1], exactly. *)
Definition f1_5 : float := S754_finite false 6755399441055744 (-52).
(** [0.05] is the double nearest to 1/20, [0x3FA999999999999A]. *)
Definition f0_05 : float := S754_finite false 7205759403792794 (-57).
End B64.

#[export] Instance B64_Arith : Arith B64.float := {
  fnan := B64.nan;
  of_Z := B64.of_int;
  fadd := B64.add;
  fsub := B64.sub;
  fmul := B64.mul;
  fdiv := B64.div;
  fsqrt := B64.sqrt;
  fltb := B64.ltb;
  is_nan := B64.isnan;
  lit_1_5 := B64.f1_5;
  lit_0_05 := B64.f0_05
}.

(** ** Arithmetic without rounding

    The real numbers with one extra value for NaN; a quotient by zero and
    the root of a negative number are NaN.  This instance has no rounding
    and no infinities: it is the arithmetic the statistics are defined in,
    not the one the scripts run on. *)

Module Exact.
Inductive xreal : Type :=
| XNaN
| XFin (r : R).

Definition lift2 (f : R -> R -> R) (a b : xreal) : xreal :=
  match a, b with
  | XFin x, XFin y => XFin (f x y)
  | _, _ => XNaN
  end.

Definition div (a b : xreal) : xreal :=
  match a, b with
  | XFin x, XFin y => if Req_dec_T y 0 then XNaN else XFin (x / y)
  | _, _ => XNaN
  end.

Definition sqrt (a : xreal) : xreal :=
  match a with
  | XFin x => if Rlt_dec x 0 then XNaN else XFin (R_sqrt.sqrt x)
  | XNaN => XNaN
  end.

Definition ltb (a b : xreal) : bool :=
  match a, b with
  | XFin x, XFin y => if Rlt_dec x y then true else false
  | _, _ => false
  end.

Definition isnan (a : xreal) : bool :=
  match a with XNaN => true | XFin _ => false end.
End Exact.

#[export] Instance Exact_Arith : Arith Exact.xreal := {
  fnan := Exact.XNaN;
  of_Z := fun z => Exact.XFin (IZR z);
  fadd := Exact.lift2 Rplus;
  fsub := Exact.lift2 Rminus;
  fmul := Exact.lift2 Rmult;
  fdiv := Exact.div;
  fsqrt := Exact.sqrt;
  fltb := Exact.ltb;
  is_nan := Exact.isnan;
  lit_1_5 := Exact.XFin (3 / 2);
  lit_0_05 := Exact.XFin (1 / 20)
}.

(** ** The statistics as the specification words them *)

Module Stats.
Section Stats.
Context {F : Type} `{Arith F}.

(** The sum of the values, added one after the other in the order of the
    list. *)
Definition total (l : list F) : F := fold_left fadd l (of_Z 0).

(** The arithmetic mean: the sum over the number of values; undefined
    (NaN) for no value. *)
Definition arithmetic_mean (l : list F) : F :=
  match l with
  | [] => fnan
  | _ :: _ => fdiv (total l) (of_Z (Z.of_nat (List.length l)))
  end.

(** The sample standard deviation: the root of the sum of the squared
    deviations from the mean over [n - 1]; undefined (NaN) for fewer than
    two values. *)
Definition sample_std (l : list F) : F :=
  let n := Z.of_nat (List.length l) in
  if n <? 2 then fnan
  else
    let m := arithmetic_mean l in
    fsqrt (fdiv (total (map (fun x => fmul (fsub x m) (fsub x m)) l))
                (of_Z (n - 1))).
End Stats.
End Stats.

(** ** The enrichment reporters: observable effects

    What [go_analysis.py] and [pathway_analysis.py] do is a sequence of
    calls on the outside world: one request to the g:Profiler service, one
    [print], and the plotting calls.  The sequence is recorded as a trace. *)

Module gprofiler.
(** A row of the result table; the scripts read the columns [name] and
    [intersection_size]. *)
Record term : Type := mkterm {
  name : string;
  intersection_size : Z
}.

(** The request [gp.profile(organism=..., query=..., sources=...)];
    [sources] is [None] when the argument is not passed. *)
Record request : Type := mkrequest {
  organism : string;
  query : list string;
  sources : option (list string)
}.

(** The service: a table, or the exception the client raises. *)
Definition service := request -> result (list term).
End gprofiler.

Inductive event : Type :=
| ev_profile (rq : gprofiler.request)
| ev_print (rows : list gprofiler.term)
| ev_barplot (x y : string) (data : list gprofiler.term)
| ev_title (s : string)
| ev_xlabel (s : string)
| ev_ylabel (s : string)
| ev_show.

(** A computation extends the trace and binds a value or raises. *)
Definition IO (A : Type) : Type := list event -> list event * result A.

#[export] Instance IO_Monad : Monad IO := {
  ret := fun A a t => (t, Ok a);
  bind := fun A B m k t =>
    match m t with
    | (t', Ok a) => k a t'
    | (t', Raise e) => (t', Raise e)
    end
}.

Definition emit (e : event) : IO unit := fun t => (t ++ [e], Ok tt).

(** The trace of a whole script. *)
Definition trace_of {A} (m : IO A) : list event := fst (m []).
Definition outcome_of {A} (m : IO A) : result A := snd (m []).

(** The requests of a trace, and its bar charts. *)
Definition queries (t : list event) : list gprofiler.request :=
  flat_map (fun e => match e with ev_profile rq => [rq] | _ => [] end) t.

Definition barplots (t : list event)
  : list (string * string * list gprofiler.term) :=
  flat_map (fun e => match e with
                     | ev_barplot x y d => [(x, y, d)]
                     | _ => []
                     end) t.

Section Reporters.
Variable svc : gprofiler.service.

(** [gp.profile(...)]: the request goes out, then the reply is bound. *)
Definition gp_profile (organism : string) (query : list string)
           (sources : option (list string)) : IO (list gprofiler.term) :=
  fun t =>
    let rq := gprofiler.mkrequest organism query sources in
    (t ++ [ev_profile rq], svc rq).

(** [df.head(n)]; [n] is 5 when not given. *)
Definition head (n : nat) (df : list gprofiler.term) := firstn n df.

(** go_analysis.py *)
Definition go_analysis (gene_list : list string) : IO unit :=
  go_results <- gp_profile "hsapiens" gene_list None ;;
  emit (ev_print (head 5 go_results)) ;;;
  emit (ev_barplot "intersection_size" "name" (head 10 go_results)) ;;;
  emit (ev_title "Top 10 Enriched GO Terms") ;;;
  emit (ev_xlabel "Intersection Size") ;;;
  emit (ev_ylabel "GO Term") ;;;
  emit ev_show.

(** pathway_analysis.py *)
Definition pathway_analysis (gene_list : list string) : IO unit :=
  pathway_analysis_results <-
    gp_profile "hsapiens" gene_list (Some ["KEGG"; "REAC"]) ;;
  emit (ev_print (head 5 pathway_analysis_results)) ;;;
  emit (ev_barplot "intersection_size" "name"
                   (head 10 pathway_analysis_results)) ;;;
  emit (ev_title "Top 10 Pathways") ;;;
  emit (ev_xlabel "Term size") ;;;
  emit (ev_ylabel "Pathway") ;;;
  emit ev_show.
End Reporters.

(** The effects of a reporter after its request, given the reply. *)
Definition go_display (go_results : list gprofiler.term) : list event :=
  [ ev_print (head 5 go_results);
    ev_barplot "intersection_size" "name" (head 10 go_results);
    ev_title "Top 10 Enriched GO Terms";
    ev_xlabel "Intersection Size";
    ev_ylabel "GO Term";
    ev_show ].

Definition pathway_display (results : list gprofiler.term) : list event :=
  [ ev_print (head 5 results);
    ev_barplot "intersection_size" "name" (head 10 results);
    ev_title "Top 10 Pathways";
    ev_xlabel "Term size";
    ev_ylabel "Pathway";
    ev_show ].

(** ** gsea.py *)

Module gsea.
Section Script.
Context {F : Type}.

(** A row of [pd.DataFrame({'Gene': ..., 'Score': ...})]. *)
Record rank_row : Type := mkrank {
  Gene : string;
  Score : F
}.

(** The frame of two columns over the same index. *)
Definition DataFrame_of_columns (gene : list string) (score : list F)
  : list rank_row :=
  map (fun p => mkrank (fst p) (snd p)) (combine gene score).

(** [set_index('Gene')]: the column becomes the row labels.  pandas does
    not check that labels are unique ([verify_integrity=False]), and no
    row is dropped. *)
Definition set_index_Gene (df : list rank_row) : list (string * F) :=
  map (fun r => (Gene r, Score r)) df.

Definition rank_df (skeletal_muscle : pd.DataFrame F) : list (string * F) :=
  set_index_Gene
    (DataFrame_of_columns (pd.col_names skeletal_muscle)
                          (pd.col_scores skeletal_muscle)).

(** The rows of the rank table labelled [g]. *)
Definition entries_of (g : string) (rk : list (string * F))
  : list (string * F) :=
  filter (fun p => String.eqb (fst p) g) rk.

Variable res2d : Type.
(** [gseapy.prerank(rnk, gene_sets, permutation_num, seed)]. *)
Variable prerank : list (string * F) -> string -> Z -> Z -> result res2d.

(** The script binds [gsea_results] and prints its [res2d]. *)
Definition run (skeletal_muscle : pd.DataFrame F) : result res2d :=
  prerank (rank_df skeletal_muscle) "KEGG_2016" 100 5.
End Script.
End gsea.

(** ** Predicates the properties are stated with *)

(** The filter of [get_gene_list.py] on one row, for a threshold [thr]. *)
Definition selected {F} `{Arith F} (thr : F) (r : pd.row F) : bool :=
  fgtb (pd.scores r) thr && fltb (pd.pvals_adj r) lit_0_05.

(** The threshold a run binds, when it ends without exception. *)
Definition threshold_of {F} `{Arith F} (df : pd.DataFrame F) : option F :=
  match get_gene_list.run df with
  | Ok e => Some (get_gene_list.threshold e)
  | Raise _ => None
  end.

(** The score of the last record named [g]. *)
Definition last_seen {F} (g : string) (df : pd.DataFrame F)
  : option F :=
  fold_left (fun acc r => if String.eqb (pd.names r) g
                          then Some (pd.scores r) else acc) df None.

(** A rank table with one entry per distinct name, the last record of a
    name giving the score. *)
Definition one_entry_per_name {F}
           (df : pd.DataFrame F) (rk : list (string * F)) : Prop :=
  forall g, In g (pd.col_names df) ->
            exists s, gsea.entries_of g rk = [(g, s)] /\
                      last_seen g df = Some s.

(** [plotted] are [k] rows of [table] (all of them when it has fewer) and
    no row left out has a larger intersection size than a plotted one. *)
Definition largest_rows (k : nat) (plotted table : list gprofiler.term)
  : Prop :=
  List.length plotted = Nat.min k (List.length table) /\
  incl plotted table /\
  forall p r, In p plotted -> In r table -> ~ In r plotted ->
              gprofiler.intersection_size r <= gprofiler.intersection_size p.

(** A reporter that checks for the empty gene list sends no request on it. *)
Definition short_circuits (script : gprofiler.service -> list string -> IO unit)
  : Prop :=
  forall svc, queries (trace_of (script svc [])) = [].

(** ** Concrete inputs *)

Module Examples.
Definition f (z : Z) : B64.float := B64.of_int z.
Definition dec (n d : Z) : B64.float := B64.of_frac n d.

(** Scores 1, 2, 3, 4, 100 with every adjusted p-value 0.01. *)
Definition five (n1 n2 n3 n4 n5 : string) : pd.DataFrame B64.float :=
  [ pd.mkrow n1 (f 1) (dec 1 100);
    pd.mkrow n2 (f 2) (dec 1 100);
    pd.mkrow n3 (f 3) (dec 1 100);
    pd.mkrow n4 (f 4) (dec 1 100);
    pd.mkrow n5 (f 100) (dec 1 100) ].

(** Scores 0.1, 0.2, 0.3 and the same rows in another order. *)
Definition tenths : pd.DataFrame B64.float :=
  [ pd.mkrow "A" (dec 1 10) (dec 1 100);
    pd.mkrow "B" (dec 2 10) (dec 1 100);
    pd.mkrow "C" (dec 3 10) (dec 1 100) ].

(** The same rows over the reals. *)
Definition x (n d : Z) : Exact.xreal := Exact.XFin (IZR n / IZR d).
Definition xtenths : pd.DataFrame Exact.xreal :=
  [ pd.mkrow "A" (x 1 10) (x 1 100);
    pd.mkrow "B" (x 2 10) (x 1 100);
    pd.mkrow "C" (x 3 10) (x 1 100) ].
Definition xtenths_rotated : pd.DataFrame Exact.xreal :=
  [ pd.mkrow "B" (x 2 10) (x 1 100);
    pd.mkrow "C" (x 3 10) (x 1 100);
    pd.mkrow "A" (x 1 10) (x 1 100) ].

(** One gene name in two records. *)
Definition twice : pd.DataFrame B64.float :=
  [ pd.mkrow "MYH7" (f 1) (dec 1 100);
    pd.mkrow "MYH7" (f 2) (dec 1 100) ].

(** A single record with a high score and a low p-value. *)
Definition single : pd.DataFrame B64.float :=
  [ pd.mkrow "ACTA1" (f 100) (dec 1 100) ].

(** A record with a missing score between two present ones, and a frame
    whose scores are all missing. *)
Definition with_gap : pd.DataFrame B64.float :=
  [ pd.mkrow "A" (f 1) (dec 1 100);
    pd.mkrow "B" B64.nan (dec 1 100);
    pd.mkrow "C" (f 2) (dec 1 100) ].
Definition all_missing : pd.DataFrame B64.float :=
  [ pd.mkrow "A" B64.nan (dec 1 100);
    pd.mkrow "B" B64.nan (dec 1 1000) ].

(** Eleven terms in the order a service returns them, the intersection
    sizes increasing from 1 to 11. *)
Definition eleven : list gprofiler.term :=
  [ gprofiler.mkterm "term01" 1; gprofiler.mkterm "term02" 2;
    gprofiler.mkterm "term03" 3; gprofiler.mkterm "term04" 4;
    gprofiler.mkterm "term05" 5; gprofiler.mkterm "term06" 6;
    gprofiler.mkterm "term07" 7; gprofiler.mkterm "term08" 8;
    gprofiler.mkterm "term09" 9; gprofiler.mkterm "term10" 10;
    gprofiler.mkterm "term11" 11 ].

(** A service that answers every request with [eleven], one that answers
    with the empty table, and one that is down. *)
Definition svc_eleven : gprofiler.service := fun _ => Ok eleven.
Definition svc_empty : gprofiler.service := fun _ => Ok [].
Definition svc_down : gprofiler.service :=
  fun _ => Raise (ServiceError "unavailable").
End Examples.

(** ** Further observations and inputs *)

(** The tables a trace prints. *)
Definition prints (t : list event) : list (list gprofiler.term) :=
  flat_map (fun e => match e with ev_print rows => [rows] | _ => [] end) t.

(** A result table in the order of decreasing intersection size: no row
    has a larger size than a row before it. *)
Fixpoint by_decreasing_size (table : list gprofiler.term) : Prop :=
  match table with
  | [] => True
  | p :: rest =>
      Forall (fun r => gprofiler.intersection_size r
                       <= gprofiler.intersection_size p) rest
      /\ by_decreasing_size rest
  end.

(** The table with every gene name replaced by its image under [f]. *)
Definition rename {F} (f : string -> string) (df : pd.DataFrame F)
  : pd.DataFrame F :=
  map (fun r => pd.mkrow (f (pd.names r)) (pd.scores r) (pd.pvals_adj r)) df.

Module MoreExamples.
(** Three scores 0.1 and one score 1.5, which lies 1.5 sample standard
    deviations above the mean; the high score last, and second. *)
Definition edge_last : pd.DataFrame B64.float :=
  [ pd.mkrow "A" (Examples.dec 1 10) (Examples.dec 1 100);
    pd.mkrow "B" (Examples.dec 1 10) (Examples.dec 1 100);
    pd.mkrow "C" (Examples.dec 1 10) (Examples.dec 1 100);
    pd.mkrow "D" (Examples.dec 15 10) (Examples.dec 1 100) ].
Definition edge_second : pd.DataFrame B64.float :=
  [ pd.mkrow "A" (Examples.dec 1 10) (Examples.dec 1 100);
    pd.mkrow "D" (Examples.dec 15 10) (Examples.dec 1 100);
    pd.mkrow "B" (Examples.dec 1 10) (Examples.dec 1 100);
    pd.mkrow "C" (Examples.dec 1 10) (Examples.dec 1 100) ].

(** Scores 1, 2, 3, 4 and a score 100 whose adjusted p-value is 0.05. *)
Definition low_four : pd.DataFrame B64.float :=
  [ pd.mkrow "g1" (Examples.f 1) (Examples.dec 1 100);
    pd.mkrow "g2" (Examples.f 2) (Examples.dec 1 100);
    pd.mkrow "g3" (Examples.f 3) (Examples.dec 1 100);
    pd.mkrow "g4" (Examples.f 4) (Examples.dec 1 100) ].
Definition at_0_05 : pd.row B64.float :=
  pd.mkrow "g5" (Examples.f 100) (Examples.dec 5 100).

(** One present score among missing ones. *)
Definition one_present : pd.DataFrame B64.float :=
  [ pd.mkrow "A" B64.nan (Examples.dec 1 100);
    pd.mkrow "B" (Examples.f 100) (Examples.dec 1 1000);
    pd.mkrow "C" B64.nan (Examples.dec 1 100) ].


(** Seven records with the score 0.1, and a record without score. *)
Definition seven_tenths : pd.DataFrame B64.float :=
  map (fun g => pd.mkrow g (Examples.dec 1 10) (Examples.dec 1 100))
      ["g01"; "g02"; "g03"; "g04"; "g05"; "g06"; "g07"].
Definition no_score : pd.row B64.float :=
  pd.mkrow "g08" B64.nan (Examples.dec 1 100).

(** A table over the reals with a record without score. *)
Definition xbefore : pd.DataFrame Exact.xreal :=
  [ pd.mkrow "A" (Examples.x 1 10) (Examples.x 1 100) ].
Definition xafter : pd.DataFrame Exact.xreal :=
  [ pd.mkrow "C" (Examples.x 3 10) (Examples.x 1 100) ].
Definition xno_score : pd.row Exact.xreal :=
  pd.mkrow "B" Exact.XNaN (Examples.x 1 100).

(** A service that returns eleven rows by decreasing intersection size. *)
Definition svc_sorted : gprofiler.service := fun _ => Ok (rev Examples.eleven).
End MoreExamples.

(** * Properties *)

(** ** Boolean masks and the filter *)

Section MaskFacts.
Context {F : Type} `{Arith F}.

Lemma Series_and_length (a b : list bool) :
  List.length a = List.length b ->
  List.length (pd.Series_and a b) = List.length a.
Proof.
  intros Hab. unfold pd.Series_and.
  rewrite length_map, length_combine, <- Hab. apply Nat.min_id.
Qed.

Lemma mask_length (df : pd.DataFrame F) (c d : F) :
  List.length (pd.Series_and (pd.Series_gt (pd.col_scores df) c)
                             (pd.Series_lt (pd.col_pvals_adj df) d))
  = List.length df.
Proof.
  rewrite Series_and_length;
    unfold pd.Series_gt, pd.Series_lt, pd.col_scores, pd.col_pvals_adj;
    now rewrite !length_map.
Qed.

(** Selecting by the mask of the two comparisons is filtering the rows. *)
Lemma take_rows_mask (df : pd.DataFrame F) (c : F) :
  pd.take_rows (pd.Series_and (pd.Series_gt (pd.col_scores df) c)
                              (pd.Series_lt (pd.col_pvals_adj df) lit_0_05))
               df
  = filter (selected c) df.
Proof.
  induction df as [|r df IH]; [reflexivity|].
  cbn [pd.col_scores pd.col_pvals_adj map pd.Series_gt pd.Series_lt
       combine pd.Series_and pd.take_rows filter fst snd].
  unfold pd.Series_and, pd.Series_gt, pd.Series_lt,
    pd.col_scores, pd.col_pvals_adj in IH.
  rewrite IH. reflexivity.
Qed.

(** The whole script in closed form: it never raises. *)
Lemma run_closed_form (df : pd.DataFrame F) :
  let mean := pd.Series_mean (pd.col_scores df) in
  let std := pd.Series_std (pd.col_scores df) in
  let thr := fadd mean (fmul lit_1_5 std) in
  get_gene_list.run df
  = Ok (get_gene_list.mkenv mean std thr
          (filter (selected thr) df)
          (map pd.names (filter (selected thr) df))).
Proof.
  cbv zeta. unfold get_gene_list.run, pd.boolean_index.
  rewrite mask_length, Nat.eqb_refl. cbn [bind result_Monad].
  now rewrite take_rows_mask.
Qed.
End MaskFacts.

(** ** binary64 obeys the NaN laws *)

Section B64Facts.
Lemma binary_round_aux_negb (s : bool) (m e : Z) (l : location) :
  binary_round_aux B64.prec B64.emax (negb s) m e l
  = SFopp (binary_round_aux B64.prec B64.emax s m e l).
Proof.
  unfold binary_round_aux.
  destruct (shr_fexp B64.prec B64.emax m e l) as [mrs' e'].
  destruct (shr_fexp B64.prec B64.emax _ e' loc_Exact) as [mrs'' e''].
  destruct (shr_m mrs''); try reflexivity.
  destruct (e'' <=? B64.emax - B64.prec); reflexivity.
Qed.

Lemma binary_normalize_opp (m e : Z) :
  m <> 0 ->
  binary_normalize B64.prec B64.emax (- m) e false
  = SFopp (binary_normalize B64.prec B64.emax m e false).
Proof.
  intros Hm. destruct m as [|p|p]; [congruence| |];
    cbn [Z.opp binary_normalize]; unfold binary_round;
    destruct (shl_align _ _ _) as [mz ez].
  - apply (binary_round_aux_negb false).
  - rewrite (binary_round_aux_negb true). cbn [negb].
    now destruct (binary_round_aux B64.prec B64.emax true (Z.pos mz) ez loc_Exact).
Qed.

Lemma mul_opp_opp (z : B64.float) :
  B64.mul (SFopp z) (SFopp z) = B64.mul z z.
Proof. destruct z as [[]|[]| |[] m e]; reflexivity. Qed.

(** Swapping the operands of a difference negates it, or leaves a zero
    or NaN unchanged. *)
Lemma sub_swap (a b : B64.float) :
  B64.sub b a = SFopp (B64.sub a b) \/
  B64.mul (B64.sub b a) (B64.sub b a) = B64.mul (B64.sub a b) (B64.sub a b).
Proof.
  destruct a as [sa|sa| |sa ma ea], b as [sb|sb| |sb mb eb];
    try (right; reflexivity);
    try (destruct sa, sb; (left; reflexivity) || (right; reflexivity));
    try (destruct sa; (left; reflexivity) || (right; reflexivity));
    try (destruct sb; (left; reflexivity) || (right; reflexivity)).
  unfold B64.sub, SFsub. rewrite (Z.min_comm eb ea). cbv zeta.
  set (X := cond_Zopp sa _). set (Y := cond_Zopp sb _).
  destruct (Z.eq_dec (X - Y) 0) as [E|E].
  - right. replace (Y - X) with 0 by lia. now rewrite E.
  - left. replace (Y - X) with (- (X - Y)) by lia.
    now apply binary_normalize_opp.
Qed.

Lemma B64_sq_sub_swap (a b : B64.float) :
  B64.mul (B64.sub a b) (B64.sub a b) = B64.mul (B64.sub b a) (B64.sub b a).
Proof.
  destruct (sub_swap a b) as [E|E]; [|now symmetry].
  rewrite E. now rewrite mul_opp_opp.
Qed.
End B64Facts.

#[export] Instance B64_NaNLaws : NaNLaws B64.float.
Proof.
  split.
  - reflexivity.
  - intros [s|s| |s m e] E; (discriminate E || reflexivity).
  - intros [s|s| |s m e]; reflexivity.
  - intros [s|s| |s m e]; reflexivity.
  - reflexivity.
  - intros [s|s| |s m e]; reflexivity.
  - intros [s|s| |s m e]; reflexivity.
  - exact B64_sq_sub_swap.
Qed.

(** ** numpy's sum *)

Section SumFacts.
Context {F : Type} {A : Arith F}.

Lemma pairwise_sum_small (fuel : nat) (a : list F) :
  (List.length a < 8)%nat ->
  pd.pairwise_sum fuel a = fold_left fadd a (of_Z 0).
Proof.
  intros Hn. apply Nat.ltb_lt in Hn.
  destruct fuel; cbn [pd.pairwise_sum]; now rewrite Hn.
Qed.

Lemma np_sum_small (a : list F) :
  (List.length a < 8)%nat -> pd.np_sum a = fold_left fadd a (of_Z 0).
Proof. apply pairwise_sum_small. Qed.

Lemma pairwise_sum_block (fuel : nat) (a : list F) :
  (8 <= List.length a <= 128)%nat ->
  pd.pairwise_sum fuel a = pd.block_sum a.
Proof.
  intros [Hlo Hhi].
  assert (H8 : Nat.ltb (List.length a) 8 = false) by now apply Nat.ltb_ge.
  apply Nat.leb_le in Hhi.
  destruct fuel; cbn [pd.pairwise_sum]; now rewrite H8, Hhi.
Qed.

Lemma pairwise_sum_split (fuel : nat) (a : list F) :
  (128 < List.length a)%nat ->
  pd.pairwise_sum (S fuel) a
  = let n := List.length a in
    let n2 := (n / 2 - (n / 2) mod 8)%nat in
    fadd (pd.pairwise_sum fuel (firstn n2 a))
         (pd.pairwise_sum fuel (skipn n2 a)).
Proof.
  intros Hn.
  assert (H8 : Nat.ltb (List.length a) 8 = false) by (apply Nat.ltb_ge; lia).
  assert (H128 : Nat.leb (List.length a) 128 = false)
    by now apply Nat.leb_gt.
  cbn [pd.pairwise_sum]. now rewrite H8, H128.
Qed.

(** The cut of a long array leaves at least eight values on either
    side. *)
Lemma split_point (n : nat) :
  (128 < n)%nat ->
  let n2 := (n / 2 - (n / 2) mod 8)%nat in
  (8 <= n2 /\ n2 + 8 <= n)%nat.
Proof.
  intros Hn. cbv zeta.
  assert (Hhalf : (64 <= n / 2 <= n)%nat).
  { split; [apply Nat.div_le_lower_bound; lia|apply Nat.Div0.div_le_upper_bound; lia]. }
  assert (Hhalf' : (2 * (n / 2) <= n)%nat) by (apply Nat.Div0.mul_div_le).
  assert (Hmod : ((n / 2) mod 8 < 8)%nat) by (apply Nat.mod_upper_bound; lia).
  lia.
Qed.

(** The recursion never runs out of fuel: with at least the length of the
    array as fuel the sum does not depend on the fuel. *)
Lemma pairwise_sum_fuel (fuel fuel' : nat) (a : list F) :
  (List.length a <= fuel)%nat -> (List.length a <= fuel')%nat ->
  pd.pairwise_sum fuel a = pd.pairwise_sum fuel' a.
Proof.
  revert fuel' a. induction fuel as [|fuel IH]; intros fuel' a Hf Hf'.
  - rewrite !pairwise_sum_small by lia. reflexivity.
  - destruct (Nat.lt_ge_cases (List.length a) 8) as [Hs|Hge].
    { now rewrite !pairwise_sum_small. }
    destruct (Nat.le_gt_cases (List.length a) 128) as [Hb|Hl].
    { now rewrite !pairwise_sum_block. }
    destruct fuel' as [|fuel']; [lia|].
    rewrite !pairwise_sum_split by exact Hl. cbv zeta.
    destruct (split_point Hl) as [Hlo Hhi].
    set (n2 := (List.length a / 2 - (List.length a / 2) mod 8)%nat) in *.
    f_equal; apply IH; rewrite ?length_firstn, ?length_skipn; lia.
Qed.
End SumFacts.

(** Ten values 0.1: the first eight are added in pairs and the sum is 1,
    where adding one after the other gives 0.9999999999999999. *)
Example np_sum_ten_tenths :
  pd.np_sum (repeat (B64.of_frac 1 10) 10) = B64.of_int 1 /\
  Stats.total (repeat (B64.of_frac 1 10) 10)
  = S754_finite false 9007199254740991 (-53).
Proof. split; vm_compute; reflexivity. Qed.

(** ** numpy's sum in arithmetic without rounding *)

Section ExactSum.
Context {F : Type} {A : Arith F} {EA : ExactAdd F}.

Lemma fadd_fold (l : list F) (c x : F) :
  fadd c (fold_left fadd l x) = fold_left fadd l (fadd c x).
Proof.
  revert x. induction l as [|y l IH]; intros x; [reflexivity|].
  cbn [fold_left]. now rewrite IH, fadd_assoc.
Qed.

Lemma fadd_interchange (a x b y : F) :
  fadd (fadd a x) (fadd b y) = fadd (fadd a b) (fadd x y).
Proof.
  rewrite !fadd_assoc. f_equal. rewrite <- !fadd_assoc. f_equal.
  apply fadd_comm.
Qed.

Lemma lanes_total_add (r0 r1 r2 r3 r4 r5 r6 r7 x0 x1 x2 x3 x4 x5 x6 x7 : F) :
  pd.lanes_total (fadd r0 x0, fadd r1 x1, fadd r2 x2, fadd r3 x3,
                  fadd r4 x4, fadd r5 x5, fadd r6 x6, fadd r7 x7)
  = fadd (pd.lanes_total (r0, r1, r2, r3, r4, r5, r6, r7))
         (pd.lanes_total (x0, x1, x2, x3, x4, x5, x6, x7)).
Proof.
  unfold pd.lanes_total.
  rewrite (fadd_interchange r0 x0 r1 x1), (fadd_interchange r2 x2 r3 x3),
    (fadd_interchange r4 x4 r5 x5), (fadd_interchange r6 x6 r7 x7).
  rewrite (fadd_interchange (fadd r0 r1) (fadd x0 x1) (fadd r2 r3) (fadd x2 x3)),
    (fadd_interchange (fadd r4 r5) (fadd x4 x5) (fadd r6 r7) (fadd x6 x7)).
  apply fadd_interchange.
Qed.

Lemma lanes_total_fold (c x0 x1 x2 x3 x4 x5 x6 x7 : F) :
  fadd c (pd.lanes_total (x0, x1, x2, x3, x4, x5, x6, x7))
  = fold_left fadd [x0; x1; x2; x3; x4; x5; x6; x7] c.
Proof.
  unfold pd.lanes_total. cbn [fold_left]. now rewrite !fadd_assoc.
Qed.

(** The loop over the groups of eight adds up what it consumes. *)
Lemma unrolled_fold (n : nat) :
  forall (a : list F) (r : pd.lanes),
    (List.length a <= n)%nat ->
    fold_left fadd (snd (pd.unrolled r a)) (pd.lanes_total (fst (pd.unrolled r a)))
    = fold_left fadd a (pd.lanes_total r).
Proof.
  induction n as [|n IH]; intros a r Hn.
  - destruct a; [reflexivity|cbn in Hn; lia].
  - destruct a as [|x0 [|x1 [|x2 [|x3 [|x4 [|x5 [|x6 [|x7 rest]]]]]]]];
      try reflexivity.
    destruct r as [[[[[[[r0 r1] r2] r3] r4] r5] r6] r7].
    cbn [pd.unrolled]. rewrite IH by (cbn in Hn; lia).
    rewrite lanes_total_add, lanes_total_fold. reflexivity.
Qed.

(** A block of eight or more values adds up to their sum from the first
    value on. *)
Lemma block_sum_exact (x : F) (rest : list F) :
  (7 <= List.length rest)%nat ->
  pd.block_sum (x :: rest) = fold_left fadd rest x.
Proof.
  intros Hn.
  destruct rest as [|x1 [|x2 [|x3 [|x4 [|x5 [|x6 [|x7 rest]]]]]]];
    try (cbn in Hn; lia).
  unfold pd.block_sum.
  destruct (pd.unrolled (x, x1, x2, x3, x4, x5, x6, x7) rest)
    as [r tail] eqn:E.
  change r with (fst (r, tail)). change tail with (snd (r, tail)) at 1.
  rewrite <- E, (unrolled_fold (n := List.length rest)) by lia.
  cbn [fold_left]. f_equal. unfold pd.lanes_total.
  now rewrite !fadd_assoc.
Qed.

Lemma pairwise_sum_exact (fuel : nat) :
  forall (x : F) (rest : list F),
    (7 <= List.length rest)%nat ->
    pd.pairwise_sum fuel (x :: rest) = fold_left fadd rest x.
Proof.
  induction fuel as [|fuel IH]; intros x rest Hn;
    (destruct (Nat.le_gt_cases (List.length (x :: rest)) 128) as [Hb|Hl];
     [rewrite pairwise_sum_block by (cbn [List.length] in *; lia);
      now apply block_sum_exact|]).
  - assert (H8 : Nat.ltb (List.length (x :: rest)) 8 = false)
      by (apply Nat.ltb_ge; cbn [List.length]; lia).
    assert (H128 : Nat.leb (List.length (x :: rest)) 128 = false)
      by now apply Nat.leb_gt.
    cbn [pd.pairwise_sum]. rewrite H8, H128. now apply block_sum_exact.
  - rewrite pairwise_sum_split by exact Hl. cbv zeta.
    destruct (split_point Hl) as [Hlo Hhi].
    set (n2 := (List.length (x :: rest) / 2
                - (List.length (x :: rest) / 2) mod 8)%nat) in *.
    assert (H1 : List.length (firstn n2 (x :: rest)) = n2)
      by (rewrite length_firstn; lia).
    assert (H2 : List.length (skipn n2 (x :: rest))
                 = (List.length (x :: rest) - n2)%nat)
      by apply length_skipn.
    assert (Hcut := firstn_skipn n2 (x :: rest)).
    destruct (firstn n2 (x :: rest)) as [|x' rest1];
      [cbn [List.length] in *; lia|].
    destruct (skipn n2 (x :: rest)) as [|y rest2];
      [cbn [List.length] in *; lia|].
    cbn [List.length] in *.
    rewrite (IH x' rest1), (IH y rest2) by lia.
    cbn [app] in Hcut. injection Hcut as -> <-.
    rewrite fold_left_app. cbn [fold_left]. apply fadd_fold.
Qed.

Lemma fold_fadd_perm (l l' : list F) :
  Permutation l l' ->
  forall acc, fold_left fadd l acc = fold_left fadd l' acc.
Proof.
  induction 1 as [|x l l' _ IH|x y l|l l' l'' _ IH1 _ IH2]; intros acc.
  - reflexivity.
  - cbn [fold_left]. apply IH.
  - cbn [fold_left]. f_equal.
    rewrite <- !fadd_assoc. f_equal. apply fadd_comm.
  - now rewrite IH1.
Qed.

Lemma fold_from_first_perm (l l' : list F) :
  Permutation l l' ->
  forall x rest x' rest',
    l = x :: rest -> l' = x' :: rest' ->
    fold_left fadd rest x = fold_left fadd rest' x'.
Proof.
  induction 1 as [|z l l' P _|y z l|l l' l'' P1 IH1 P2 IH2];
    intros x rest x' rest' E E'.
  - discriminate E.
  - injection E as <- <-. injection E' as <- <-. now apply fold_fadd_perm.
  - injection E as <- <-. injection E' as <- <-.
    cbn [fold_left]. f_equal. apply fadd_comm.
  - subst l l''. destruct l' as [|m mid].
    + apply Permutation_sym, Permutation_nil in P1. discriminate P1.
    + transitivity (fold_left fadd mid m); [now apply IH1|now apply IH2].
Qed.

(** The sum does not depend on the order of the values. *)
Lemma np_sum_perm (a a' : list F) :
  Permutation a a' -> pd.np_sum a = pd.np_sum a'.
Proof.
  intros P. assert (Hlen := Permutation_length P). unfold pd.np_sum.
  destruct (Nat.lt_ge_cases (List.length a) 8) as [Hs|Hge].
  - rewrite !pairwise_sum_small by lia. now apply fold_fadd_perm.
  - destruct a as [|x rest]; [cbn in Hge; lia|].
    destruct a' as [|x' rest']; [cbn in Hlen; lia|].
    cbn [List.length] in Hge, Hlen.
    rewrite !pairwise_sum_exact by lia.
    now apply (fold_from_first_perm P).
Qed.
End ExactSum.
(** ** The reals obey the laws *)

(** The reals add exactly. *)
#[export] Instance Exact_ExactAdd : ExactAdd Exact.xreal.
Proof.
  split.
  - intros [|x] [|y] [|z]; cbn; try reflexivity. f_equal. ring.
  - intros [|x] [|y]; cbn; try reflexivity. f_equal. ring.
Qed.

#[export] Instance Exact_ZeroNeutral : ZeroNeutral Exact.xreal.
Proof.
  split. intros [|x]; cbn; [reflexivity|]. f_equal. ring.
Qed.

#[export] Instance Exact_NaNLaws : NaNLaws Exact.xreal.
Proof.
  split.
  - reflexivity.
  - intros [|x] E; (discriminate E || reflexivity).
  - intros [|x]; reflexivity.
  - intros [|x]; reflexivity.
  - reflexivity.
  - intros [|x]; reflexivity.
  - intros [|x]; reflexivity.
  - intros [|a] [|b]; cbn; try reflexivity. f_equal. ring.
Qed.

(** ** Missing values and the statistics *)

Section StatFacts.
Context {F : Type} `{NaNLaws F}.

Lemma threshold_nan_std (m : F) : fadd m (fmul lit_1_5 fnan) = fnan.
Proof. now rewrite fmul_nan_r, fadd_nan_r. Qed.

(** No row passes a NaN threshold. *)
Lemma selected_nan_threshold (r : pd.row F) : selected fnan r = false.
Proof. unfold selected, fgtb. now rewrite fltb_nan_l. Qed.

Lemma filter_nan_threshold (df : pd.DataFrame F) :
  filter (selected fnan) df = [].
Proof.
  induction df as [|r df IH]; [reflexivity|].
  cbn [filter]. now rewrite selected_nan_threshold.
Qed.

(** A row with a missing score or p-value passes no threshold. *)
Lemma selected_missing (thr : F) (r : pd.row F) :
  is_nan (pd.scores r) = true \/ is_nan (pd.pvals_adj r) = true ->
  selected thr r = false.
Proof.
  unfold selected, fgtb. intros [E|E]; apply is_nan_eq in E; rewrite E.
  - now rewrite fltb_nan_r.
  - rewrite fltb_nan_l. apply Bool.andb_false_r.
Qed.

Lemma dropna_all_missing (s : list F) :
  Forall (fun x => is_nan x = true) s -> pd.dropna s = [].
Proof.
  induction 1 as [|x s Hx _ IH]; [reflexivity|].
  unfold pd.dropna in *. cbn [filter]. now rewrite Hx.
Qed.

Lemma dropna_length (s : list F) :
  (List.length (pd.dropna s) <= List.length s)%nat.
Proof. apply filter_length_le. Qed.

(** Fewer than two present values: the standard deviation is NaN. *)
Lemma Series_std_few (s : list F) :
  (List.length (pd.dropna s) <= 1)%nat -> pd.Series_std s = fnan.
Proof.
  intros Hle. unfold pd.Series_std, pd.Series_var. cbv zeta.
  apply Nat.leb_le in Hle. rewrite Hle. apply fsqrt_nan.
Qed.

(** With a NaN standard deviation the run binds a NaN threshold and an
    empty list. *)
Lemma run_nan_std (df : pd.DataFrame F) :
  pd.Series_std (pd.col_scores df) = fnan ->
  get_gene_list.run df
  = Ok (get_gene_list.mkenv (pd.Series_mean (pd.col_scores df))
                            fnan fnan [] []).
Proof.
  intros E. rewrite run_closed_form, E, threshold_nan_std.
  now rewrite filter_nan_threshold.
Qed.
End StatFacts.

(** ** The statistics in arithmetic without rounding *)

Section ExactStats.
Context {F : Type} {A : Arith F}
        {EA : ExactAdd F} {ZN : ZeroNeutral F} {NL : NaNLaws F}.

Lemma fadd_0_l (x : F) : fadd (of_Z 0) x = x.
Proof. rewrite fadd_comm. apply fadd_0_r. Qed.

(** numpy's sum is the sum in the order of the list. *)
Lemma np_sum_total (a : list F) : pd.np_sum a = Stats.total a.
Proof.
  unfold pd.np_sum, Stats.total.
  destruct (Nat.lt_ge_cases (List.length a) 8) as [Hs|Hge].
  - now apply pairwise_sum_small.
  - destruct a as [|x rest]; [cbn in Hge; lia|].
    rewrite pairwise_sum_exact by (cbn [List.length] in Hge; lia).
    cbn [fold_left]. now rewrite fadd_0_l.
Qed.

(** Values replaced by [0.0] add nothing. *)
Lemma fold_masked (g : F -> F) (s : list F) (acc : F) :
  fold_left fadd (map (fun x => if is_nan x then of_Z 0 else g x) s) acc
  = fold_left fadd (map g (pd.dropna s)) acc.
Proof.
  unfold pd.dropna. revert acc.
  induction s as [|x s IH]; intros acc; [reflexivity|].
  cbn [map filter fold_left]. destruct (is_nan x); cbn [negb map fold_left].
  - rewrite fadd_0_r. apply IH.
  - apply IH.
Qed.

Lemma total_masked (g : F -> F) (s : list F) :
  Stats.total (map (fun x => if is_nan x then of_Z 0 else g x) s)
  = Stats.total (map g (pd.dropna s)).
Proof. apply fold_masked. Qed.

Lemma total_fillna0 (s : list F) :
  Stats.total (pd.fillna0 s) = Stats.total (pd.dropna s).
Proof.
  unfold pd.fillna0. rewrite (total_masked (fun x => x)). now rewrite map_id.
Qed.

(** pandas' mean is the arithmetic mean of the present values. *)
Lemma Series_mean_exact (s : list F) :
  pd.Series_mean s = Stats.arithmetic_mean (pd.dropna s).
Proof.
  unfold pd.Series_mean, Stats.arithmetic_mean. cbv zeta.
  rewrite np_sum_total, total_fillna0.
  now destruct (pd.dropna s).
Qed.

(** pandas' std is the sample standard deviation of the present values. *)
Lemma Series_std_exact (s : list F) :
  pd.Series_std s = Stats.sample_std (pd.dropna s).
Proof.
  unfold pd.Series_std, pd.Series_var, Stats.sample_std. cbv zeta.
  rewrite !np_sum_total, total_fillna0, total_masked.
  set (v := pd.dropna s).
  destruct (Nat.leb_spec (List.length v) 1) as [Hle|Hgt].
  - rewrite fsqrt_nan.
    destruct (Z.ltb_spec (Z.of_nat (List.length v)) 2); [reflexivity|lia].
  - destruct (Z.ltb_spec (Z.of_nat (List.length v)) 2); [lia|].
    replace (Z.of_nat (List.length v - 1))
      with (Z.of_nat (List.length v) - 1) by lia.
    do 3 f_equal. unfold Stats.arithmetic_mean.
    destruct v as [|x v]; [cbn in Hgt; lia|].
    apply map_ext. intros a. apply fsq_sub_swap.
Qed.
End ExactStats.
(** ** The significant-gene extractor on binary64 *)




(** C2.  For every gene-score table the run ends without exception, the
    threshold is pandas' mean of the scores column plus 1.5 times its
    standard deviation, and the gene list is the names of the records
    whose score is strictly above that threshold and whose adjusted
    p-value is strictly below 0.05, in table order, a name repeated as
    often as it is selected. *)
Theorem gene_list_is_filtered_names (df : pd.DataFrame B64.float) :
  exists e,
    get_gene_list.run df = Ok e /\
    get_gene_list.threshold e
    = B64.add (pd.Series_mean (pd.col_scores df))
              (B64.mul (B64.of_frac 3 2) (pd.Series_std (pd.col_scores df))) /\
    get_gene_list.significant_genes e
    = filter (fun r => B64.ltb (get_gene_list.threshold e) (pd.scores r)
                       && B64.ltb (pd.pvals_adj r) (B64.of_frac 5 100))
             df /\
    get_gene_list.gene_list e
    = map pd.names
        (filter (fun r => B64.ltb (get_gene_list.threshold e) (pd.scores r)
                          && B64.ltb (pd.pvals_adj r) (B64.of_frac 5 100))
                df).
Proof.
  eexists. split; [apply run_closed_form|]. repeat split.
Qed.

(** C6.  When every score of the table is missing, and so when the table
    is empty, the run ends without exception, the threshold is NaN and the
    gene list is empty. *)
Theorem all_missing_scores_nan_threshold (df : pd.DataFrame B64.float) :
  (forall r, In r df -> B64.isnan (pd.scores r) = true) ->
  exists e,
    get_gene_list.run df = Ok e /\
    get_gene_list.threshold e = B64.nan /\
    get_gene_list.gene_list e = [].
Proof.
  intros Hall. eexists. split; [apply run_nan_std|split; reflexivity].
  apply Series_std_few. rewrite dropna_all_missing; [cbn; lia|].
  unfold pd.col_scores. apply Forall_map, Forall_forall. exact Hall.
Qed.

Lemma all_missing_scores_witness :
  exists e,
    get_gene_list.run Examples.all_missing = Ok e /\
    get_gene_list.threshold e = B64.nan /\
    get_gene_list.gene_list e = [].
Proof.
  apply (all_missing_scores_nan_threshold Examples.all_missing).
  intros r [E|[E|[]]]; subst r; reflexivity.
Defined.

(** C7.  A record whose score or adjusted p-value is missing is left out
    of the selection, wherever it stands in the table, and the run ends
    without exception: the selection is the selection of the rows before
    it followed by that of the rows after it. *)
Theorem missing_record_excluded
        (before after : pd.DataFrame B64.float) (r : pd.row B64.float) :
  B64.isnan (pd.scores r) = true \/ B64.isnan (pd.pvals_adj r) = true ->
  exists e,
    get_gene_list.run (before ++ r :: after) = Ok e /\
    get_gene_list.gene_list e
    = map pd.names (filter (selected (get_gene_list.threshold e)) before)
      ++ map pd.names (filter (selected (get_gene_list.threshold e)) after).
Proof.
  intros Hr. eexists. split; [apply run_closed_form|].
  cbn [get_gene_list.gene_list get_gene_list.threshold].
  rewrite filter_app. cbn [filter].
  rewrite selected_missing by exact Hr. apply map_app.
Qed.

Lemma missing_record_excluded_witness :
  exists e,
    get_gene_list.run Examples.with_gap = Ok e /\
    get_gene_list.gene_list e
    = map pd.names
        (filter (selected (get_gene_list.threshold e))
                [pd.mkrow "A" (Examples.f 1) (Examples.dec 1 100)])
      ++ map pd.names
        (filter (selected (get_gene_list.threshold e))
                [pd.mkrow "C" (Examples.f 2) (Examples.dec 1 100)]).
Proof.
  apply (missing_record_excluded
           [pd.mkrow "A" (Examples.f 1) (Examples.dec 1 100)]
           [pd.mkrow "C" (Examples.f 2) (Examples.dec 1 100)]
           (pd.mkrow "B" B64.nan (Examples.dec 1 100))).
  left. reflexivity.
Defined.

(** C10.  On a table of one record the standard deviation ([ddof = 1]) is
    NaN, so the threshold is NaN and the gene list is empty, whatever the
    record's score and p-value. *)
Theorem single_record_selects_nothing (r : pd.row B64.float) :
  exists e,
    get_gene_list.run [r] = Ok e /\
    get_gene_list.std_score e = B64.nan /\
    get_gene_list.threshold e = B64.nan /\
    get_gene_list.gene_list e = [].
Proof.
  eexists. split; [apply run_nan_std|repeat split; reflexivity].
  apply Series_std_few.
  apply (dropna_length (pd.col_scores [r])).
Qed.

Example single_record_run :
  get_gene_list.run Examples.single
  = Ok (get_gene_list.mkenv (B64.of_int 100) B64.nan B64.nan [] []).
Proof. vm_compute. reflexivity. Qed.

Example empty_table_run :
  get_gene_list.run (F := B64.float) []
  = Ok (get_gene_list.mkenv B64.nan B64.nan B64.nan [] []).
Proof. vm_compute. reflexivity. Qed.

(** ** Scores 1, 2, 3, 4, 100 *)

(** The double nearest to each decimal literal. *)
Lemma literals_nearest :
  lit_1_5 = B64.of_frac 3 2 /\ lit_0_05 = B64.of_frac 5 100.
Proof. split; reflexivity. Qed.

(** The run on the five records, whatever they are named. *)
Lemma run_five (n1 n2 n3 n4 n5 : string) :
  get_gene_list.run (Examples.five n1 n2 n3 n4 n5)
  = Ok (get_gene_list.mkenv
          (B64.of_int 22)
          (S754_finite false 6138639490623877 (-47))
          (S754_finite false 6152091989876516 (-46))
          [pd.mkrow n5 (B64.of_int 100) (B64.of_frac 1 100)]
          [n5]).
Proof. rewrite run_closed_form. vm_compute. reflexivity. Qed.

(** C8, as the code computes it.  On scores 1, 2, 3, 4, 100 with every
    adjusted p-value 0.01 the mean is 22, the sample standard deviation is
    43.6 to one decimal (43.6176...), the threshold is 87.4 to one decimal
    (87.4264...), and the gene list is the one gene whose score is 100. *)
Theorem five_scores_statistics (n1 n2 n3 n4 n5 : string) :
  exists e,
    get_gene_list.run (Examples.five n1 n2 n3 n4 n5) = Ok e /\
    get_gene_list.mean_score e = B64.of_int 22 /\
    B64.rounds_to_tenths (get_gene_list.std_score e) 436 = true /\
    B64.within (get_gene_list.std_score e) 436176 436177 10000 = true /\
    B64.rounds_to_tenths (get_gene_list.threshold e) 874 = true /\
    B64.within (get_gene_list.threshold e) 874264 874265 10000 = true /\
    get_gene_list.gene_list e = [n5].
Proof.
  eexists. split; [apply run_five|].
  repeat split; vm_compute; reflexivity.
Qed.

(** C8, as the specification words it, fails: the standard deviation does
    not round to 43.7 nor the threshold to 87.6. *)
Lemma five_scores_not_43_7_87_6 :
  ~ (exists e,
        get_gene_list.run (Examples.five "g1" "g2" "g3" "g4" "g5") = Ok e /\
        get_gene_list.mean_score e = B64.of_int 22 /\
        B64.rounds_to_tenths (get_gene_list.std_score e) 437 = true /\
        B64.rounds_to_tenths (get_gene_list.threshold e) 876 = true /\
        get_gene_list.gene_list e = ["g5"]).
Proof.
  intros (e & Hrun & _ & Hstd & _).
  rewrite run_five in Hrun. injection Hrun as <-.
  vm_compute in Hstd. discriminate Hstd.
Qed.

(** ** Row order *)

Section RowOrder.
Context {F : Type} `{ExactAdd F}.

Lemma filter_perm {A} (p : A -> bool) (l l' : list A) :
  Permutation l l' -> Permutation (filter p l) (filter p l').
Proof.
  induction 1 as [|x l l' _ IH|x y l|l l' l'' _ IH1 _ IH2].
  - constructor.
  - cbn [filter]. destruct (p x); [now constructor|exact IH].
  - cbn [filter]. destruct (p x), (p y);
      try reflexivity; apply perm_swap.
  - now transitivity (filter p l').
Qed.

Lemma count_perm (s s' : list F) :
  Permutation s s' ->
  List.length (pd.dropna s) = List.length (pd.dropna s').
Proof.
  intros P. apply Permutation_length. unfold pd.dropna. now apply filter_perm.
Qed.

Lemma Series_mean_perm (s s' : list F) :
  Permutation s s' -> pd.Series_mean s = pd.Series_mean s'.
Proof.
  intros P. unfold pd.Series_mean. cbv zeta.
  rewrite (count_perm P).
  now rewrite (np_sum_perm (Permutation_map _ P : Permutation (pd.fillna0 s) (pd.fillna0 s'))).
Qed.

Lemma Series_var_perm (s s' : list F) :
  Permutation s s' -> pd.Series_var s = pd.Series_var s'.
Proof.
  intros P. unfold pd.Series_var. cbv zeta.
  rewrite (count_perm P).
  rewrite (np_sum_perm (Permutation_map _ P : Permutation (pd.fillna0 s) (pd.fillna0 s'))).
  destruct (Nat.leb _ 1); [reflexivity|]. f_equal.
  apply np_sum_perm. now apply Permutation_map.
Qed.
End RowOrder.




(** ** The enrichment reporters *)

Section ReporterFacts.
Variable svc : gprofiler.service.

Lemma go_analysis_trace (gene_list : list string) :
  let rq := gprofiler.mkrequest "hsapiens" gene_list None in
  trace_of (go_analysis svc gene_list)
  = ev_profile rq ::
    match svc rq with
    | Ok go_results => go_display go_results
    | Raise _ => []
    end.
Proof.
  cbv zeta. unfold trace_of, go_analysis, gp_profile.
  cbn [bind IO_Monad app]. now destruct (svc _).
Qed.

Lemma pathway_analysis_trace (gene_list : list string) :
  let rq := gprofiler.mkrequest "hsapiens" gene_list
                                (Some ["KEGG"; "REAC"]) in
  trace_of (pathway_analysis svc gene_list)
  = ev_profile rq ::
    match svc rq with
    | Ok results => pathway_display results
    | Raise _ => []
    end.
Proof.
  cbv zeta. unfold trace_of, pathway_analysis, gp_profile.
  cbn [bind IO_Monad app]. now destruct (svc _).
Qed.
End ReporterFacts.

(** C4, as the code does it.  For every gene list, the empty one included,
    each reporter sends exactly one request to the service, with the gene
    list as it is, and the request is its first effect: no check of the
    list and no message come before it. *)
Theorem reporters_always_query
        (svc : gprofiler.service) (gene_list : list string) :
  let go_rq := gprofiler.mkrequest "hsapiens" gene_list None in
  let pw_rq := gprofiler.mkrequest "hsapiens" gene_list
                                   (Some ["KEGG"; "REAC"]) in
  queries (trace_of (go_analysis svc gene_list)) = [go_rq] /\
  hd_error (trace_of (go_analysis svc gene_list)) = Some (ev_profile go_rq) /\
  queries (trace_of (pathway_analysis svc gene_list)) = [pw_rq] /\
  hd_error (trace_of (pathway_analysis svc gene_list))
  = Some (ev_profile pw_rq).
Proof.
  cbv zeta. rewrite go_analysis_trace, pathway_analysis_trace.
  repeat split; cbn [queries flat_map app];
    now destruct (svc _).
Qed.

(** C4, as the specification words it, fails: on the empty gene list both
    reporters send the request. *)
Lemma empty_gene_list_is_queried :
  ~ short_circuits go_analysis /\ ~ short_circuits pathway_analysis /\
  queries (trace_of (go_analysis Examples.svc_empty []))
  = [gprofiler.mkrequest "hsapiens" [] None] /\
  queries (trace_of (pathway_analysis Examples.svc_empty []))
  = [gprofiler.mkrequest "hsapiens" [] (Some ["KEGG"; "REAC"])].
Proof.
  split; [|split; [|split; reflexivity]];
    intros Hsc; specialize (Hsc Examples.svc_empty); discriminate Hsc.
Qed.

Example request_fails_on_empty_list :
  trace_of (go_analysis Examples.svc_down [])
  = [ev_profile (gprofiler.mkrequest "hsapiens" [] None)] /\
  outcome_of (go_analysis Examples.svc_down [])
  = Raise (ServiceError "unavailable").
Proof. split; reflexivity. Qed.

(** C5, as the code does it.  When the service replies, each reporter
    draws one bar chart with [intersection_size] on the x axis and [name]
    on the y axis, of the first 10 rows of the result table in the order
    the service returned them (of all rows when there are fewer); when the
    request fails nothing is drawn. *)
Theorem barplot_first_ten_rows
        (svc : gprofiler.service) (gene_list : list string) :
  barplots (trace_of (go_analysis svc gene_list))
  = match svc (gprofiler.mkrequest "hsapiens" gene_list None) with
    | Ok go_results => [("intersection_size", "name", firstn 10 go_results)]
    | Raise _ => []
    end /\
  barplots (trace_of (pathway_analysis svc gene_list))
  = match svc (gprofiler.mkrequest "hsapiens" gene_list
                                   (Some ["KEGG"; "REAC"])) with
    | Ok results => [("intersection_size", "name", firstn 10 results)]
    | Raise _ => []
    end.
Proof.
  rewrite go_analysis_trace, pathway_analysis_trace.
  split; now destruct (svc _).
Qed.

(** C5, as the specification words it, fails: of eleven rows returned with
    increasing intersection size the chart shows the first ten and leaves
    out the largest. *)
Lemma barplot_not_largest_rows :
  exists data,
    barplots (trace_of (go_analysis Examples.svc_eleven ["ACTA1"]))
    = [("intersection_size", "name", data)] /\
    barplots (trace_of (pathway_analysis Examples.svc_eleven ["ACTA1"]))
    = [("intersection_size", "name", data)] /\
    ~ largest_rows 10 data Examples.eleven.
Proof.
  exists (firstn 10 Examples.eleven).
  split; [reflexivity|split; [reflexivity|]].
  intros (_ & _ & Hmax).
  specialize (Hmax (gprofiler.mkterm "term01" 1)
                   (gprofiler.mkterm "term11" 11)).
  cbn in Hmax.
  assert (Hle : 11 <= 1); [|lia].
  apply Hmax; [tauto|tauto|].
  intros Hin. repeat (destruct Hin as [Hin|Hin]; [discriminate Hin|]).
  exact Hin.
Qed.

(** ** The rank table *)

Section RankFacts.
Context {F : Type}.

Lemma rank_df_rows (df : pd.DataFrame F) :
  gsea.rank_df df = map (fun r => (pd.names r, pd.scores r)) df.
Proof.
  unfold gsea.rank_df, gsea.set_index_Gene, gsea.DataFrame_of_columns,
    pd.col_names, pd.col_scores.
  induction df as [|r df IH]; [reflexivity|].
  cbn [map combine fst snd gsea.Gene gsea.Score]. now rewrite IH.
Qed.

Lemma entries_of_map (g : string) (df : pd.DataFrame F) :
  gsea.entries_of g (map (fun r => (pd.names r, pd.scores r)) df)
  = map (fun r => (pd.names r, pd.scores r))
        (filter (fun r => String.eqb (pd.names r) g) df).
Proof.
  unfold gsea.entries_of.
  induction df as [|r df IH]; [reflexivity|].
  cbn [map filter fst]. destruct (String.eqb (pd.names r) g);
    cbn [map]; now rewrite IH.
Qed.
End RankFacts.

(** C3, as the code does it.  The rank table has exactly one entry per
    record of the source table, in table order, each entry pairing the
    record's gene name with its score; a gene name that stands in several
    records has as many entries, one for each of these records. *)
Theorem rank_table_one_entry_per_record
        (F : Type) (df : pd.DataFrame F) (g : string) :
  gsea.rank_df df = map (fun r => (pd.names r, pd.scores r)) df /\
  List.length (gsea.rank_df df) = List.length df /\
  gsea.entries_of g (gsea.rank_df df)
  = map (fun r => (pd.names r, pd.scores r))
        (filter (fun r => String.eqb (pd.names r) g) df).
Proof.
  rewrite rank_df_rows. repeat split.
  - apply length_map.
  - apply entries_of_map.
Qed.

(** C3, as the specification words it, fails: a gene name in two records
    has two entries in the rank table, the first with the first record's
    score. *)
Lemma rank_table_keeps_duplicates :
  gsea.entries_of "MYH7" (gsea.rank_df Examples.twice)
  = [("MYH7", B64.of_int 1); ("MYH7", B64.of_int 2)] /\
  ~ one_entry_per_name Examples.twice (gsea.rank_df Examples.twice).
Proof.
  split; [reflexivity|].
  intros Hone. destruct (Hone "MYH7") as (s & Hs & _).
  - left. reflexivity.
  - cbn in Hs. discriminate Hs.
Qed.

(** * Further properties of the scripts *)

(** ** The extractor and records it does not count *)

Section SkipFacts.
Context {F : Type} {A : Arith F}
        {EA : ExactAdd F} {ZN : ZeroNeutral F} {NL : NaNLaws F}.

Lemma dropna_without_missing (before after : list F) (x : F) :
  is_nan x = true ->
  pd.dropna (before ++ x :: after) = pd.dropna (before ++ after).
Proof.
  intros Hx. unfold pd.dropna. rewrite !filter_app. cbn [filter].
  now rewrite Hx.
Qed.

Lemma run_without_missing_score
      (before after : pd.DataFrame F) (r : pd.row F) :
  is_nan (pd.scores r) = true ->
  get_gene_list.run (before ++ r :: after)
  = get_gene_list.run (before ++ after).
Proof.
  intros Hr. rewrite !run_closed_form.
  rewrite !Series_mean_exact, !Series_std_exact.
  unfold pd.col_scores. rewrite !map_app. cbn [map].
  rewrite (dropna_without_missing _ _ _ Hr).
  rewrite (filter_app _ before (r :: after)). cbn [filter].
  rewrite selected_missing by (left; exact Hr).
  now rewrite <- filter_app.
Qed.
End SkipFacts.

(** X1.  In arithmetic without rounding a record whose score is missing
    changes nothing: with it or without it the run binds the same mean,
    standard deviation and threshold and returns the same genes. *)
Theorem missing_score_changes_nothing_exact
        {F : Type} {A : Arith F}
        {EA : ExactAdd F} {ZN : ZeroNeutral F} {NL : NaNLaws F}
        (before after : pd.DataFrame F) (r : pd.row F) :
  is_nan (pd.scores r) = true ->
  get_gene_list.run (before ++ r :: after)
  = get_gene_list.run (before ++ after).
Proof. intros Hr. now apply run_without_missing_score. Qed.

Lemma missing_score_changes_nothing_exact_witness :
  get_gene_list.run
    (MoreExamples.xbefore ++ MoreExamples.xno_score :: MoreExamples.xafter)
  = get_gene_list.run (MoreExamples.xbefore ++ MoreExamples.xafter).
Proof.
  apply (missing_score_changes_nothing_exact
           (EA := Exact_ExactAdd) (ZN := Exact_ZeroNeutral)
           (NL := Exact_NaNLaws)
           MoreExamples.xbefore MoreExamples.xafter MoreExamples.xno_score).
  reflexivity.
Defined.

(** X15.  On binary64 a record whose score is missing can change the
    statistics: pandas adds the column with the missing score replaced by
    0.0, and with eight values numpy adds in pairs, so seven scores 0.1
    have the mean 0.09999999999999999 and the same seven followed by a
    record without score have the mean 0.1; the thresholds differ. *)
Theorem missing_score_changes_threshold :
  exists (df : pd.DataFrame B64.float) (r : pd.row B64.float) e e',
    B64.isnan (pd.scores r) = true /\
    get_gene_list.run df = Ok e /\
    get_gene_list.run (df ++ [r]) = Ok e' /\
    get_gene_list.mean_score e = S754_finite false 7205759403792793 (-56) /\
    get_gene_list.mean_score e' = S754_finite false 7205759403792794 (-56) /\
    get_gene_list.threshold e <> get_gene_list.threshold e'.
Proof.
  exists MoreExamples.seven_tenths, MoreExamples.no_score.
  do 2 eexists.
  split; [reflexivity|].
  split; [apply run_closed_form|split; [apply run_closed_form|]].
  cbn [get_gene_list.mean_score get_gene_list.threshold].
  split; [vm_compute; reflexivity|split; [vm_compute; reflexivity|]].
  vm_compute. discriminate.
Qed.
(** ** Strict comparisons *)

Lemma SFcompare_Eq_sym (a b : B64.float) :
  SFcompare a b = Some Eq -> SFcompare b a = Some Eq.
Proof.
  destruct a as [sa|sa| |sa ma ea], b as [sb|sb| |sb mb eb];
    cbn [SFcompare]; try discriminate; try reflexivity;
    try (destruct sa; discriminate); try (destruct sb; discriminate);
    try (destruct sa, sb; (discriminate || reflexivity)).
  intros E.
  assert (Hs : sa = sb /\ ea = eb /\ ma = mb).
  { destruct sa, sb; try discriminate;
      destruct (Z.compare_spec ea eb); try discriminate;
      (split; [reflexivity|split; [assumption|]]);
      apply Pos.compare_eq; unfold Pos.compare;
      destruct (Pos.compare_cont Eq ma mb); (discriminate || reflexivity). }
  destruct Hs as (-> & -> & ->).
  rewrite Z.compare_refl.
  change (Pos.compare_cont Eq mb mb) with (Pos.compare mb mb).
  rewrite Pos.compare_refl. now destruct sb.
Qed.

Lemma selected_boundary (thr : B64.float) (r : pd.row B64.float) :
  SFeqb (pd.scores r) thr = true \/
  SFeqb (pd.pvals_adj r) B64.f0_05 = true ->
  selected thr r = false.
Proof.
  unfold selected, fgtb, SFeqb. cbn [fltb B64_Arith lit_0_05].
  unfold B64.ltb, SFltb. intros [E|E].
  - destruct (SFcompare (pd.scores r) thr) as [[]|] eqn:C; try discriminate.
    now rewrite (SFcompare_Eq_sym _ _ C).
  - destruct (SFcompare (pd.pvals_adj r) B64.f0_05) as [[]|];
      try discriminate. apply Bool.andb_false_r.
Qed.

(** X2.  The two comparisons are strict: a record whose score equals the
    threshold, or whose adjusted p-value equals 0.05, is left out of the
    gene list. *)
Theorem boundary_record_excluded
        (before after : pd.DataFrame B64.float) (r : pd.row B64.float)
        (thr : B64.float) :
  threshold_of (before ++ r :: after) = Some thr ->
  SFeqb (pd.scores r) thr = true \/
  SFeqb (pd.pvals_adj r) (B64.of_frac 5 100) = true ->
  exists e,
    get_gene_list.run (before ++ r :: after) = Ok e /\
    get_gene_list.gene_list e
    = map pd.names (filter (selected thr) before)
      ++ map pd.names (filter (selected thr) after).
Proof.
  unfold threshold_of. rewrite run_closed_form.
  cbn [get_gene_list.threshold]. set (t := fadd _ _).
  intros Hthr Hr. assert (Ht : t = thr) by congruence.
  eexists. split; [reflexivity|].
  cbn [get_gene_list.gene_list]. rewrite Ht.
  rewrite filter_app. cbn [filter].
  rewrite (selected_boundary thr r Hr). apply map_app.
Qed.

Lemma boundary_record_excluded_witness :
  exists e,
    get_gene_list.run (MoreExamples.low_four ++ [MoreExamples.at_0_05])
    = Ok e /\
    get_gene_list.gene_list e = [].
Proof.
  destruct (boundary_record_excluded
              MoreExamples.low_four [] MoreExamples.at_0_05
              (thr := S754_finite false 6152091989876516 (-46)))
    as (e & Hrun & Hlist).
  - vm_compute. reflexivity.
  - right. vm_compute. reflexivity.
  - exists e. split; [exact Hrun|]. rewrite Hlist. vm_compute. reflexivity.
Defined.

(** ** Row order and the gene list *)

(** X3.  In arithmetic without rounding the selection does not depend on
    the row order: a permutation of the rows gives the same threshold and
    a permutation of the gene list. *)
Theorem gene_list_row_order_exact
        {F : Type} `{ExactAdd F} (df df' : pd.DataFrame F) :
  Permutation df df' ->
  exists e e',
    get_gene_list.run df = Ok e /\
    get_gene_list.run df' = Ok e' /\
    get_gene_list.threshold e = get_gene_list.threshold e' /\
    Permutation (get_gene_list.gene_list e) (get_gene_list.gene_list e').
Proof.
  intros P. do 2 eexists.
  split; [apply run_closed_form|split; [apply run_closed_form|]].
  cbn [get_gene_list.threshold get_gene_list.gene_list].
  assert (Q : Permutation (pd.col_scores df) (pd.col_scores df'))
    by now apply Permutation_map.
  unfold pd.Series_std.
  rewrite (Series_mean_perm Q), (Series_var_perm Q).
  split; [reflexivity|].
  now apply Permutation_map, filter_perm.
Qed.

Lemma gene_list_row_order_exact_witness :
  exists e e',
    get_gene_list.run Examples.xtenths = Ok e /\
    get_gene_list.run Examples.xtenths_rotated = Ok e' /\
    get_gene_list.threshold e = get_gene_list.threshold e' /\
    Permutation (get_gene_list.gene_list e) (get_gene_list.gene_list e').
Proof.
  apply (gene_list_row_order_exact (F := Exact.xreal)).
  unfold Examples.xtenths, Examples.xtenths_rotated.
  apply Permutation_cons_append.
Defined.

(** X4.  On binary64 the gene list can depend on the row order: there are
    two tables with the same rows of which one run selects a gene and the
    other selects none (scores 0.1, 0.1, 0.1, 1.5: the threshold is
    1.4999999999999998 with the high score last and 1.5 with it second). *)
Theorem gene_list_depends_on_row_order :
  exists (df df' : pd.DataFrame B64.float) e e',
    Permutation df df' /\
    get_gene_list.run df = Ok e /\
    get_gene_list.run df' = Ok e' /\
    get_gene_list.gene_list e = ["D"] /\
    get_gene_list.gene_list e' = [].
Proof.
  exists MoreExamples.edge_last, MoreExamples.edge_second.
  do 2 eexists.
  split; [|split; [apply run_closed_form|split; [apply run_closed_form|]]].
  - unfold MoreExamples.edge_last, MoreExamples.edge_second.
    apply perm_skip. change (?a :: ?b :: ?c :: nil) with ([a; b] ++ [c]).
    apply Permutation_sym, Permutation_cons_app. cbn [app].
    apply Permutation_refl.
  - split; vm_compute; reflexivity.
Qed.

(** ** The standard deviation *)

Lemma binary_round_aux_sign (m e : Z) (l : location) :
  SFltb (binary_round_aux B64.prec B64.emax false m e l) (S754_zero false)
  = false.
Proof.
  unfold binary_round_aux.
  destruct (shr_fexp B64.prec B64.emax m e l) as [mrs' e'].
  destruct (shr_fexp B64.prec B64.emax _ e' loc_Exact) as [mrs'' e''].
  destruct (shr_m mrs''); try reflexivity.
  destruct (e'' <=? B64.emax - B64.prec); reflexivity.
Qed.

Lemma sqrt_not_negative (x : B64.float) :
  B64.ltb (B64.sqrt x) (B64.of_int 0) = false.
Proof.
  change (B64.of_int 0) with (S754_zero false).
  destruct x as [[]|[]| |[] m e]; try reflexivity.
  unfold B64.ltb, B64.sqrt, SFsqrt.
  destruct (SFsqrt_core_binary _ _ _ _) as [[mz ez] lz].
  apply binary_round_aux_sign.
Qed.

(** X5.  The standard deviation a run binds is never below zero: it is
    NaN, or it does not compare less than 0. *)
Theorem std_score_not_negative (df : pd.DataFrame B64.float) :
  exists e,
    get_gene_list.run df = Ok e /\
    B64.ltb (get_gene_list.std_score e) (B64.of_int 0) = false.
Proof.
  eexists. split; [apply run_closed_form|].
  cbn [get_gene_list.std_score]. apply sqrt_not_negative.
Qed.

(** ** Gene names are labels *)

Section RenameFacts.
Context {F : Type} `{Arith F}.

Lemma rename_scores (f : string -> string) (df : pd.DataFrame F) :
  pd.col_scores (rename f df) = pd.col_scores df.
Proof.
  unfold pd.col_scores, rename. rewrite map_map. reflexivity.
Qed.

Lemma rename_names (f : string -> string) (df : pd.DataFrame F) :
  map pd.names (rename f df) = map f (map pd.names df).
Proof. unfold rename. rewrite !map_map. reflexivity. Qed.

Lemma rename_filter (f : string -> string) (thr : F) (df : pd.DataFrame F) :
  filter (selected thr) (rename f df) = rename f (filter (selected thr) df).
Proof.
  induction df as [|r df IH]; [reflexivity|].
  change (rename f (r :: df))
    with (pd.mkrow (f (pd.names r)) (pd.scores r) (pd.pvals_adj r)
          :: rename f df).
  cbn [filter].
  change (selected thr (pd.mkrow (f (pd.names r)) (pd.scores r)
                                 (pd.pvals_adj r)))
    with (selected thr r).
  destruct (selected thr r); rewrite IH; reflexivity.
Qed.
End RenameFacts.

(** X6.  The extractor reads gene names only to return them: renaming the
    genes of a table leaves the threshold as it is and renames the gene
    list in the same way. *)
Theorem renaming_commutes_with_selection
        (f : string -> string) (df : pd.DataFrame B64.float) :
  exists e e',
    get_gene_list.run df = Ok e /\
    get_gene_list.run (rename f df) = Ok e' /\
    get_gene_list.threshold e' = get_gene_list.threshold e /\
    get_gene_list.gene_list e' = map f (get_gene_list.gene_list e).
Proof.
  do 2 eexists.
  split; [apply run_closed_form|split; [apply run_closed_form|]].
  cbn [get_gene_list.threshold get_gene_list.gene_list].
  rewrite rename_scores. split; [reflexivity|].
  now rewrite rename_filter, rename_names.
Qed.

(** ** From the extractor to the reporters *)

(** X7.  A table with fewer than two present scores has a NaN threshold
    and an empty gene list, and a reporter given that list still sends its
    request, with an empty query. *)
Theorem few_scores_empty_query
        (svc : gprofiler.service) (df : pd.DataFrame B64.float) :
  (List.length (pd.dropna (pd.col_scores df)) <= 1)%nat ->
  exists e,
    get_gene_list.run df = Ok e /\
    get_gene_list.threshold e = B64.nan /\
    get_gene_list.gene_list e = [] /\
    queries (trace_of (go_analysis svc (get_gene_list.gene_list e)))
    = [gprofiler.mkrequest "hsapiens" [] None] /\
    queries (trace_of (pathway_analysis svc (get_gene_list.gene_list e)))
    = [gprofiler.mkrequest "hsapiens" [] (Some ["KEGG"; "REAC"])].
Proof.
  intros Hfew. eexists.
  split; [apply run_nan_std; now apply Series_std_few|].
  cbn [get_gene_list.threshold get_gene_list.gene_list].
  rewrite go_analysis_trace, pathway_analysis_trace.
  repeat split; cbn [queries flat_map app]; now destruct (svc _).
Qed.

Lemma few_scores_empty_query_witness :
  exists e,
    get_gene_list.run MoreExamples.one_present = Ok e /\
    get_gene_list.threshold e = B64.nan /\
    get_gene_list.gene_list e = [] /\
    queries (trace_of (go_analysis Examples.svc_empty
                                   (get_gene_list.gene_list e)))
    = [gprofiler.mkrequest "hsapiens" [] None] /\
    queries (trace_of (pathway_analysis Examples.svc_empty
                                        (get_gene_list.gene_list e)))
    = [gprofiler.mkrequest "hsapiens" [] (Some ["KEGG"; "REAC"])].
Proof.
  apply (few_scores_empty_query Examples.svc_empty MoreExamples.one_present).
  vm_compute. lia.
Defined.

(** ** The reporters and the reply of the service *)



Lemma firstn_firstn_5_10 {A} (l : list A) :
  firstn 5 (firstn 10 l) = firstn 5 l.
Proof. rewrite firstn_firstn. reflexivity. Qed.

(** X9.  When the service replies, the GO reporter prints once and draws
    once and ends without exception; the chart has at most 10 bars, shows
    the whole table when it has at most 10 rows, and the printed rows are
    the first five of the plotted ones. *)
Theorem printed_rows_head_the_chart
        (svc : gprofiler.service) (gene_list : list string)
        (go_results : list gprofiler.term) :
  svc (gprofiler.mkrequest "hsapiens" gene_list None) = Ok go_results ->
  exists printed plotted,
    prints (trace_of (go_analysis svc gene_list)) = [printed] /\
    barplots (trace_of (go_analysis svc gene_list))
    = [("intersection_size", "name", plotted)] /\
    outcome_of (go_analysis svc gene_list) = Ok tt /\
    printed = firstn 5 plotted /\
    (List.length plotted <= 10)%nat /\
    ((List.length go_results <= 10)%nat -> plotted = go_results).
Proof.
  intros Hgo. exists (firstn 5 go_results), (firstn 10 go_results).
  rewrite go_analysis_trace.
  unfold outcome_of, go_analysis, gp_profile.
  cbn [bind IO_Monad app]. rewrite Hgo.
  repeat split.
  - symmetry. apply firstn_firstn_5_10.
  - apply firstn_le_length.
  - intros Hle. now apply firstn_all2.
Qed.

Lemma printed_rows_head_the_chart_witness :
  exists printed plotted,
    prints (trace_of (go_analysis Examples.svc_eleven ["ACTA1"]))
    = [printed] /\
    barplots (trace_of (go_analysis Examples.svc_eleven ["ACTA1"]))
    = [("intersection_size", "name", plotted)] /\
    outcome_of (go_analysis Examples.svc_eleven ["ACTA1"]) = Ok tt /\
    printed = firstn 5 plotted /\
    (List.length plotted <= 10)%nat /\
    ((List.length Examples.eleven <= 10)%nat -> plotted = Examples.eleven).
Proof.
  apply (printed_rows_head_the_chart Examples.svc_eleven ["ACTA1"]).
  reflexivity.
Defined.

Section HeadFacts.
Lemma in_skipn {A} (n : nat) (l : list A) (x : A) :
  In x (skipn n l) -> In x l.
Proof.
  intros Hx. rewrite <- (firstn_skipn n l). apply in_or_app. now right.
Qed.

Lemma in_firstn {A} (n : nat) (l : list A) (x : A) :
  In x (firstn n l) -> In x l.
Proof.
  intros Hx. rewrite <- (firstn_skipn n l). apply in_or_app. now left.
Qed.

(** In a table by decreasing size no row after the first [n] is larger
    than one of the first [n]. *)
Lemma head_dominates (table : list gprofiler.term) :
  by_decreasing_size table ->
  forall n p r,
    In p (firstn n table) -> In r (skipn n table) ->
    gprofiler.intersection_size r <= gprofiler.intersection_size p.
Proof.
  induction table as [|p0 rest IH]; intros Hsorted n p r Hp Hr.
  - destruct n; contradiction.
  - destruct Hsorted as [Hall Hrest]. destruct n as [|n].
    + contradiction.
    + cbn [firstn skipn] in Hp, Hr. destruct Hp as [<-|Hp].
      * rewrite Forall_forall in Hall. apply Hall.
        now apply (in_skipn n).
      * now apply (IH Hrest n).
Qed.

Lemma head_largest_rows (n : nat) (table : list gprofiler.term) :
  by_decreasing_size table -> largest_rows n (firstn n table) table.
Proof.
  intros Hsorted. split; [apply length_firstn|split].
  - intros x. apply in_firstn.
  - intros p r Hp Hr Hout.
    apply head_dominates with (table := table) (n := n);
      [exact Hsorted|exact Hp|].
    rewrite <- (firstn_skipn n table) in Hr.
    apply in_app_or in Hr. destruct Hr as [Hr|Hr]; [contradiction|exact Hr].
Qed.
End HeadFacts.

(** X10.  When the service returns its rows by decreasing intersection
    size, the rows either reporter draws are the ten largest of the
    table. *)
Theorem sorted_reply_plots_largest
        (svc : gprofiler.service) (gene_list : list string)
        (go_results pathway_results : list gprofiler.term) :
  svc (gprofiler.mkrequest "hsapiens" gene_list None) = Ok go_results ->
  svc (gprofiler.mkrequest "hsapiens" gene_list (Some ["KEGG"; "REAC"]))
  = Ok pathway_results ->
  by_decreasing_size go_results ->
  by_decreasing_size pathway_results ->
  exists go_plotted pathway_plotted,
    barplots (trace_of (go_analysis svc gene_list))
    = [("intersection_size", "name", go_plotted)] /\
    largest_rows 10 go_plotted go_results /\
    barplots (trace_of (pathway_analysis svc gene_list))
    = [("intersection_size", "name", pathway_plotted)] /\
    largest_rows 10 pathway_plotted pathway_results.
Proof.
  intros Hgo Hpw Sgo Spw.
  exists (firstn 10 go_results), (firstn 10 pathway_results).
  rewrite go_analysis_trace, pathway_analysis_trace, Hgo, Hpw.
  repeat split; try reflexivity;
    try (now apply head_largest_rows);
    now apply (head_largest_rows 10).
Qed.

Lemma sorted_reply_plots_largest_witness :
  exists go_plotted pathway_plotted,
    barplots (trace_of (go_analysis MoreExamples.svc_sorted ["ACTA1"]))
    = [("intersection_size", "name", go_plotted)] /\
    largest_rows 10 go_plotted (rev Examples.eleven) /\
    barplots (trace_of (pathway_analysis MoreExamples.svc_sorted ["ACTA1"]))
    = [("intersection_size", "name", pathway_plotted)] /\
    largest_rows 10 pathway_plotted (rev Examples.eleven).
Proof.
  apply (sorted_reply_plots_largest MoreExamples.svc_sorted ["ACTA1"]);
    try reflexivity;
    cbn; repeat (split; [repeat constructor; cbn; lia|]); exact I.
Defined.

(** ** The rank table and the gene-score table *)

(** X11.  The rank table keeps the two columns it is built from: its
    labels are the names column and its scores the scores column of the
    source table, row by row; adjusted p-values have no part in it. *)
Theorem rank_table_columns (F : Type) (df : pd.DataFrame F) :
  map fst (gsea.rank_df df) = pd.col_names df /\
  map snd (gsea.rank_df df) = pd.col_scores df.
Proof.
  rewrite rank_df_rows. unfold pd.col_names, pd.col_scores.
  rewrite !map_map. split; reflexivity.
Qed.

Section UniqueNames.
Context {F : Type}.

Lemma filter_absent (g : string) (l : pd.DataFrame F) :
  ~ In g (pd.col_names l) ->
  filter (fun r => String.eqb (pd.names r) g) l = [].
Proof.
  induction l as [|r l IH]; [reflexivity|]. cbn [pd.col_names map In filter].
  intros Hout. destruct (String.eqb_spec (pd.names r) g) as [E|_].
  - exfalso. apply Hout. now left.
  - apply IH. intros Hin. apply Hout. now right.
Qed.

Lemma last_seen_absent (g : string) (l : pd.DataFrame F) (acc : option F) :
  ~ In g (pd.col_names l) ->
  fold_left (fun acc r => if String.eqb (pd.names r) g
                          then Some (pd.scores r) else acc) l acc
  = acc.
Proof.
  revert acc. induction l as [|r l IH]; intros acc Hout; [reflexivity|].
  cbn [pd.col_names map In fold_left] in *.
  destruct (String.eqb_spec (pd.names r) g) as [E|_].
  - exfalso. apply Hout. now left.
  - apply IH. intros Hin. apply Hout. now right.
Qed.

Lemma unique_name_entry (before after : pd.DataFrame F) (r : pd.row F) :
  NoDup (pd.col_names (before ++ r :: after)) ->
  gsea.entries_of (pd.names r) (gsea.rank_df (before ++ r :: after))
  = [(pd.names r, pd.scores r)] /\
  last_seen (pd.names r) (before ++ r :: after) = Some (pd.scores r).
Proof.
  unfold pd.col_names. rewrite map_app. cbn [map]. intros Hnd.
  assert (Hout := NoDup_remove_2 _ _ _ Hnd).
  assert (Hb : ~ In (pd.names r) (pd.col_names before))
    by (intros Hin; apply Hout, in_or_app; now left).
  assert (Ha : ~ In (pd.names r) (pd.col_names after))
    by (intros Hin; apply Hout, in_or_app; now right).
  split.
  - rewrite rank_df_rows, entries_of_map, filter_app. cbn [filter].
    rewrite String.eqb_refl, (filter_absent _ before Hb),
      (filter_absent _ after Ha).
    reflexivity.
  - unfold last_seen. rewrite fold_left_app. cbn [fold_left].
    rewrite String.eqb_refl. now apply last_seen_absent.
Qed.
End UniqueNames.

(** X12.  When no gene name occurs twice in the source table, the rank
    table has exactly one entry for each gene name, carrying the score of
    its record. *)
Theorem unique_names_one_entry_per_name (F : Type) (df : pd.DataFrame F) :
  NoDup (pd.col_names df) ->
  one_entry_per_name df (gsea.rank_df df).
Proof.
  intros Hnd g Hg. unfold pd.col_names in Hg.
  apply in_map_iff in Hg. destruct Hg as (r & <- & Hr).
  apply in_split in Hr. destruct Hr as (before & after & ->).
  exists (pd.scores r). now apply unique_name_entry.
Qed.

Lemma unique_names_one_entry_per_name_witness :
  one_entry_per_name Examples.tenths (gsea.rank_df Examples.tenths).
Proof.
  apply (@unique_names_one_entry_per_name B64.float Examples.tenths).
  cbn. repeat constructor; cbn; intuition discriminate.
Defined.

(** X13.  Every gene of the significant-gene list has an entry in the
    rank table built from the same table, with a score above the
    threshold. *)
Theorem significant_genes_are_ranked (df : pd.DataFrame B64.float) :
  exists e,
    get_gene_list.run df = Ok e /\
    forall g, In g (get_gene_list.gene_list e) ->
              exists s, In (g, s) (gsea.rank_df df) /\
                        B64.ltb (get_gene_list.threshold e) s = true.
Proof.
  eexists. split; [apply run_closed_form|].
  cbn [get_gene_list.gene_list get_gene_list.threshold].
  intros g Hg. apply in_map_iff in Hg. destruct Hg as (r & <- & Hr).
  apply filter_In in Hr. destruct Hr as [Hin Hsel].
  exists (pd.scores r). split.
  - rewrite rank_df_rows. apply in_map_iff. now exists r.
  - unfold selected in Hsel. apply Bool.andb_true_iff in Hsel.
    exact (proj1 Hsel).
Qed.

(** ** Two rows on binary64 *)

Section TwoRows.
(** The sum of two values does not depend on their order. *)
Lemma np_sum_two_comm (a b : B64.float) :
  pd.np_sum [a; b] = pd.np_sum [b; a].
Proof.
  rewrite !np_sum_small by (cbn; lia).
  cbn [fold_left fadd of_Z B64_Arith].
  change (B64.of_int 0) with (S754_zero false).
  destruct a as [[]|[]| |sa ma ea], b as [[]|[]| |sb mb eb];
    try reflexivity.
  change (B64.add (S754_zero false) (S754_finite sa ma ea))
    with (S754_finite sa ma ea).
  change (B64.add (S754_zero false) (S754_finite sb mb eb))
    with (S754_finite sb mb eb).
  unfold B64.add, SFadd. cbv zeta.
  now rewrite (Z.min_comm ea eb), Z.add_comm.
Qed.

Lemma count_two (a b : B64.float) :
  List.length (pd.dropna [a; b]) = List.length (pd.dropna [b; a]).
Proof.
  unfold pd.dropna. cbn [filter is_nan B64_Arith].
  now destruct (B64.isnan a), (B64.isnan b).
Qed.

Lemma Series_mean_two (a b : B64.float) :
  pd.Series_mean [a; b] = pd.Series_mean [b; a].
Proof.
  unfold pd.Series_mean. cbv zeta. rewrite (count_two a b).
  unfold pd.fillna0. cbn [map]. now rewrite np_sum_two_comm.
Qed.

Lemma Series_var_two (a b : B64.float) :
  pd.Series_var [a; b] = pd.Series_var [b; a].
Proof.
  unfold pd.Series_var. cbv zeta. rewrite (count_two a b).
  unfold pd.fillna0. cbn [map].
  set (fa := if is_nan a then of_Z 0 else a).
  set (fb := if is_nan b then of_Z 0 else b).
  rewrite (np_sum_two_comm fb fa).
  destruct (Nat.leb _ 1); [reflexivity|]. f_equal.
  apply np_sum_two_comm.
Qed.
End TwoRows.

(** X14.  On binary64 a table of two rows gives the same mean, standard
    deviation and threshold in either row order; the order of the rows
    can matter only from three rows on. *)
Theorem two_rows_order_independent (r1 r2 : pd.row B64.float) :
  exists e e',
    get_gene_list.run [r1; r2] = Ok e /\
    get_gene_list.run [r2; r1] = Ok e' /\
    get_gene_list.mean_score e = get_gene_list.mean_score e' /\
    get_gene_list.std_score e = get_gene_list.std_score e' /\
    get_gene_list.threshold e = get_gene_list.threshold e'.
Proof.
  do 2 eexists.
  split; [apply run_closed_form|split; [apply run_closed_form|]].
  cbn [get_gene_list.mean_score get_gene_list.std_score
       get_gene_list.threshold pd.col_scores map].
  unfold pd.Series_std.
  rewrite (Series_mean_two (pd.scores r1) (pd.scores r2)),
    (Series_var_two (pd.scores r1) (pd.scores r2)).
  repeat split.
Qed.

(** ** Short tables on binary64 *)

Section ShortTables.
Context {F : Type} {A : Arith F} {NL : NaNLaws F}.

Lemma dropna_all_present (s : list F) :
  Forall (fun x => is_nan x = false) s -> pd.dropna s = s.
Proof.
  induction 1 as [|x s Hx _ IH]; [reflexivity|].
  unfold pd.dropna in *. cbn [filter]. rewrite Hx. cbn [negb]. now rewrite IH.
Qed.

Lemma masked_all_present (g : F -> F) (s : list F) :
  Forall (fun x => is_nan x = false) s ->
  map (fun x => if is_nan x then of_Z 0 else g x) s = map g s.
Proof.
  induction 1 as [|x s Hx _ IH]; [reflexivity|].
  cbn [map]. now rewrite Hx, IH.
Qed.

Lemma fillna0_all_present (s : list F) :
  Forall (fun x => is_nan x = false) s -> pd.fillna0 s = s.
Proof.
  intros Hs. unfold pd.fillna0.
  rewrite (masked_all_present (fun x => x) Hs). apply map_id.
Qed.

(** Fewer than eight present scores: pandas' statistics are the
    statistics taken in table order. *)
Lemma Series_mean_short (s : list F) :
  (List.length s < 8)%nat -> Forall (fun x => is_nan x = false) s ->
  pd.Series_mean s = Stats.arithmetic_mean s.
Proof.
  intros Hn Hs. unfold pd.Series_mean, Stats.arithmetic_mean. cbv zeta.
  rewrite (dropna_all_present Hs), (fillna0_all_present Hs).
  rewrite np_sum_small by exact Hn. now destruct s.
Qed.

Lemma Series_std_short (s : list F) :
  (List.length s < 8)%nat -> Forall (fun x => is_nan x = false) s ->
  pd.Series_std s = Stats.sample_std s.
Proof.
  intros Hn Hs.
  unfold pd.Series_std, pd.Series_var, Stats.sample_std. cbv zeta.
  rewrite (dropna_all_present Hs), (fillna0_all_present Hs).
  rewrite (masked_all_present _ Hs).
  rewrite !np_sum_small by (rewrite ?length_map; exact Hn).
  destruct (Nat.leb_spec (List.length s) 1) as [Hle|Hgt].
  - rewrite fsqrt_nan.
    destruct (Z.ltb_spec (Z.of_nat (List.length s)) 2); [reflexivity|lia].
  - destruct (Z.ltb_spec (Z.of_nat (List.length s)) 2); [lia|].
    replace (Z.of_nat (List.length s - 1))
      with (Z.of_nat (List.length s) - 1) by lia.
    do 2 f_equal. unfold Stats.total. f_equal.
    unfold Stats.arithmetic_mean, Stats.total.
    destruct s as [|x s]; [cbn in Hgt; lia|].
    apply map_ext. intros a. apply fsq_sub_swap.
Qed.
End ShortTables.

(** X16.  On binary64, for a table of fewer than eight records none of
    which lacks its score, the threshold is exactly the arithmetic mean of
    the scores plus 1.5 times their sample standard deviation, each sum
    taken in table order. *)
Theorem short_table_threshold_formula (df : pd.DataFrame B64.float) :
  (List.length df < 8)%nat ->
  (forall r, In r df -> B64.isnan (pd.scores r) = false) ->
  exists e,
    get_gene_list.run df = Ok e /\
    get_gene_list.threshold e
    = B64.add (Stats.arithmetic_mean (pd.col_scores df))
              (B64.mul (B64.of_frac 3 2)
                       (Stats.sample_std (pd.col_scores df))).
Proof.
  intros Hn Hall.
  assert (Hs : Forall (fun x => is_nan x = false) (pd.col_scores df)).
  { unfold pd.col_scores. apply Forall_map, Forall_forall. exact Hall. }
  assert (Hlen : (List.length (pd.col_scores df) < 8)%nat)
    by (unfold pd.col_scores; now rewrite length_map).
  eexists. split; [apply run_closed_form|].
  cbn [get_gene_list.threshold].
  now rewrite (Series_mean_short Hlen Hs), (Series_std_short Hlen Hs).
Qed.

Lemma short_table_threshold_formula_witness :
  exists e,
    get_gene_list.run (Examples.five "g1" "g2" "g3" "g4" "g5") = Ok e /\
    get_gene_list.threshold e
    = B64.add (Stats.arithmetic_mean
                 (pd.col_scores (Examples.five "g1" "g2" "g3" "g4" "g5")))
              (B64.mul (B64.of_frac 3 2)
                       (Stats.sample_std
                          (pd.col_scores
                             (Examples.five "g1" "g2" "g3" "g4" "g5")))).
Proof.
  apply (short_table_threshold_formula
           (Examples.five "g1" "g2" "g3" "g4" "g5")).
  - cbn. lia.
  - intros r [E|[E|[E|[E|[E|[]]]]]]; subst r; reflexivity.
Defined.
